(** * setup-lazarus: the version resolver, the cache gate and the installer driver

    A shallow embedding of [src/lazarus.ts].  The pure part of the file
    ([findFPCVersion], [createLazarusFileName]) becomes Rocq functions on
    strings.  The class [Lazarus] becomes a record, and its asynchronous
    methods become computations in a small monad that threads the state of
    the host machine, records every call made to the outside world, and
    stops at the first exception. *)

From Stdlib Require Import Strings.String Strings.Ascii Lists.List Bool.Bool Arith.PeanoNat Lia.
Import ListNotations.

Local Open Scope list_scope.
Local Open Scope string_scope.

(** ** JavaScript string operations used by the source *)

Module Js.

(** [s.startsWith(p)] *)
Definition startsWith (s p : string) : bool := String.prefix p s.

(** [s.endsWith(p)] *)
Definition endsWith (s p : string) : bool :=
  (String.length p <=? String.length s)%nat &&
  String.eqb (String.substring (String.length s - String.length p) (String.length p) s) p.

(** [s.split(sep)] for a separator of one character, the only kind the
    source uses.  The empty string splits into one empty component. *)
Fixpoint split (sep : ascii) (s : string) : list string :=
  match s with
  | EmptyString => [EmptyString]
  | String c rest =>
      if Ascii.eqb c sep then EmptyString :: split sep rest
      else match split sep rest with
           | p :: ps => String c p :: ps
           | [] => [String c EmptyString]
           end
  end.

(** [s.includes(c)] for one character. *)
Fixpoint includes (s : string) (c : ascii) : bool :=
  match s with
  | EmptyString => false
  | String d rest => Ascii.eqb d c || includes rest c
  end.

(** The text an array element takes inside a concatenation: [a[0]] of an
    empty array is [undefined], which concatenates as "undefined". *)
Definition index0_text (a : list string) : string :=
  match a with
  | [] => "undefined"
  | x :: _ => x
  end.

(** The double quote character, as a string of length one. *)
Definition dquote : string := String (ascii_of_nat 34) EmptyString.

End Js.

(** ** Version resolver *)

Definition StableVersion : string := "4.2".

Definition findFPCVersion (ver : string) : string :=
  if Js.startsWith ver "2.0.1" then "3.2.0"
  else if Js.startsWith ver "2.0." || Js.startsWith ver "1.8" then "3.0.4"
  else if String.eqb ver "1.6.4" then "3.0.2"
  else if Js.startsWith ver "1.6" then "3.0.0"
  else if String.eqb ver "1.2.0" || Js.startsWith ver "1.0" then "2.6.2"
  else if Js.startsWith ver "1.4" || Js.startsWith ver "1.2" then "2.6.4"
  else "3.2.2".

(** The rule table of the specification: a pattern is a prefix test or an
    equality test, the first matching rule gives the result, and the default
    is used when none matches.  This definition follows the specification's
    words; [findFPCVersion] above follows the code. *)
Inductive Pattern : Type :=
| StartsWith (p : string)
| Exactly (s : string).

Definition matches (pat : Pattern) (ver : string) : bool :=
  match pat with
  | StartsWith p => Js.startsWith ver p
  | Exactly s => String.eqb ver s
  end.

Fixpoint first_match (rules : list (Pattern * string)) (default ver : string) : string :=
  match rules with
  | [] => default
  | (pat, res) :: rest => if matches pat ver then res else first_match rest default ver
  end.

Definition fpc_rule_table : list (Pattern * string) :=
  [ (StartsWith "2.0.1", "3.2.0");
    (StartsWith "2.0.", "3.0.4");
    (StartsWith "1.8", "3.0.4");
    (Exactly "1.6.4", "3.0.2");
    (StartsWith "1.6", "3.0.0");
    (Exactly "1.2.0", "2.6.2");
    (StartsWith "1.0", "2.6.2");
    (StartsWith "1.4", "2.6.4");
    (StartsWith "1.2", "2.6.4") ].

Definition default_fpc_version : string := "3.2.2".

Definition no_rule_matches (ver : string) : bool :=
  forallb (fun rule => negb (matches (fst rule) ver)) fpc_rule_table.

(** ** Artifact file names *)

(** [createLazarusFileName] returns a string on Windows and an object with
    the keys [laz], [fpc] and [fpcsrc] elsewhere. *)
Record FileNames : Type := mkFileNames {
  laz : string;
  fpc : string;
  fpcsrc : string
}.

Inductive FileName : Type :=
| FNString (s : string)
| FNObject (o : FileNames).

(** Suffix chosen by the [switch (fpcver)] of the non-darwin branch. *)
Definition linux_fpcverSuffix (ver fpcver : string) : string :=
  if String.eqb fpcver "3.2.2" then "210709"
  else if String.eqb fpcver "3.2.0" then "1"
  else if String.eqb fpcver "3.0.4" then "2"
  else if String.eqb fpcver "3.0.2" then "170225"
  else if String.eqb fpcver "3.0.0" then "151205"
  else if String.eqb fpcver "2.6.4" then
    (if Js.startsWith ver "1.2." && negb (String.eqb ver "1.2.0") then "140420" else "150228")
  else if String.eqb fpcver "2.6.2" then "0"
  else "".

Definition darwin_fpcverSuffix (fpcver : string) : string :=
  if String.eqb fpcver "3.2.0" then "2"
  else if String.eqb fpcver "3.2.2" then "20210709"
  else "".

Definition win_arch_tag (arch : string) : string :=
  if String.eqb arch "x64" then "win64" else "win32".

Definition darwin_2_0_8_names : FileNames :=
  {| laz := "LazarusIDE-2.0.8-macos-x86_64.pkg";
     fpc := "fpc-3.0.4-macos-x86_64-laz-2.dmg";
     fpcsrc := "fpc-src-3.0.4-laz.pkg" |}.

Definition darwin_built_names (p ver : string) : FileNames :=
  let fpcver := findFPCVersion ver in
  let fpcverSuffix := darwin_fpcverSuffix fpcver in
  {| laz := "Lazarus-" ++ ver ++ "-macosx-" ++ p ++ ".pkg";
     fpc := "fpc-" ++ fpcver ++ ".intel"
              ++ (if Js.startsWith fpcver "2.0" then "" else "arm64") ++ "-macosx.dmg";
     fpcsrc := "fpc-src-" ++ fpcver ++ "-" ++ fpcverSuffix ++ "-laz."
              ++ (if Js.startsWith ver "2.0" then "pkg" else "dmg") |}.

Definition linux_built_names (ver : string) : FileNames :=
  let fpcver := findFPCVersion ver in
  let fpcverSuffix := linux_fpcverSuffix ver fpcver in
  {| laz := "lazarus-project_" ++ ver ++ "-0_amd64.deb";
     fpc := "fpc" ++ (if negb (Js.startsWith ver "1.") then "_" else "-laz-")
              ++ fpcver ++ "-"
              ++ (if String.eqb fpcver "3.0.4" then "1" else fpcverSuffix) ++ "_amd64.deb";
     fpcsrc := "fpc-src_" ++ fpcver ++ "-" ++ fpcverSuffix ++ "_amd64.deb" |}.

(** [createLazarusFileName(ver)], with the results of [os.platform()] and
    [os.arch()] as arguments. *)
Definition createLazarusFileName (p arch ver : string) : FileName :=
  let fpcver := findFPCVersion ver in
  if Js.startsWith p "win" then
    FNString ("lazarus-" ++ ver ++ "-fpc-" ++ fpcver ++ "-" ++ win_arch_tag arch ++ ".exe")
  else if String.eqb p "darwin" then
    (if negb (String.eqb ver "2.0.8")
     then FNObject (darwin_built_names p ver)
     else FNObject darwin_2_0_8_names)
  else FNObject (linux_built_names ver).

(** [String(x)] of the value, as the template strings and [+=] apply it. *)
Definition FileName_text (f : FileName) : string :=
  match f with
  | FNString s => s
  | FNObject _ => "[object Object]"
  end.

(** [String(x[pkg])]: a property that is absent reads [undefined]. *)
Definition FileName_get_text (f : FileName) (pkg : string) : string :=
  match f with
  | FNString _ => "undefined"
  | FNObject o =>
      if String.eqb pkg "laz" then laz o
      else if String.eqb pkg "fpc" then fpc o
      else if String.eqb pkg "fpcsrc" then fpcsrc o
      else "undefined"
  end.

(** ** The host machine and the calls made to it *)

(** A JavaScript exception.  [Error] is [new Error(message)], also the
    rejection of a promise by [exec], [tc.downloadTool], [fs.readdirSync]
    or the cache; [AssertionError] is raised by [assert.ok]; [TypeError]
    by the runtime. *)
Inductive JsError : Type :=
| Error (message : string)
| AssertionError (message : string)
| TypeError (message : string).

(** One call to the world outside the program, with its arguments. *)
Inductive Event : Type :=
| core_info (message : string)
| core_addPath (inputPath : string)
| core_exportVariable (name val : string)
| exec_call (commandLine : string)
| tc_downloadTool (url dest : string)
| Cache_restore (key : string)
| fs_existsSync (path : string)
| fs_readdirSync (path : string).

(** The runner: what [os], [process.env] and [path] answer, and how every
    external call answers in a state [W] of the machine.  [advance] is the
    effect of a call on the machine. *)
Record Host (W : Type) : Type := mkHost {
  os_platform : string;
  os_arch : string;
  env_RUNNER_TEMP : option string;
  path_join : list string -> string;
  exec_result : string -> W -> option JsError;
  downloadTool_result : string -> string -> W -> JsError + string;
  restoreCache_result : string -> W -> JsError + bool;
  existsSync_result : string -> W -> bool;
  readdirSync_result : string -> W -> JsError + list string;
  advance : Event -> W -> W
}.

Arguments os_platform {W} _.
Arguments os_arch {W} _.
Arguments env_RUNNER_TEMP {W} _.
Arguments path_join {W} _ _.
Arguments exec_result {W} _ _ _.
Arguments downloadTool_result {W} _ _ _ _.
Arguments restoreCache_result {W} _ _ _.
Arguments existsSync_result {W} _ _ _.
Arguments readdirSync_result {W} _ _ _.
Arguments advance {W} _ _ _.

(** What a computation leaves behind: its value or the exception that
    stopped it, the machine afterwards, and the calls it made, in order. *)
Record Outcome (W A : Type) : Type := mkOutcome {
  result : JsError + A;
  world : W;
  trace : list Event
}.

Arguments mkOutcome {W A} _ _ _.
Arguments result {W A} _.
Arguments world {W A} _.
Arguments trace {W A} _.

Definition M (W A : Type) : Type := W -> Outcome W A.

Definition ret {W A} (a : A) : M W A :=
  fun w => mkOutcome (inr a) w [].

Definition throw {W A} (e : JsError) : M W A :=
  fun w => mkOutcome (inl e) w [].

Definition bind {W A B} (m : M W A) (f : A -> M W B) : M W B :=
  fun w =>
    let o := m w in
    match result o with
    | inl e => mkOutcome (inl e) (world o) (trace o)
    | inr a => let o' := f a (world o) in
               mkOutcome (result o') (world o') (trace o ++ trace o')%list
    end.

Declare Scope run_scope.
Delimit Scope run_scope with run.
Notation "x <- m ;; k" := (bind m (fun x => k))
  (at level 61, m at next level, right associativity) : run_scope.
Notation "m ;; k" := (bind m (fun _ => k))
  (at level 61, right associativity) : run_scope.

(** A call is recorded and changes the machine whether it succeeds or not. *)
Definition call {W A} (h : Host W) (e : Event) (answer : W -> JsError + A) : M W A :=
  fun w => mkOutcome (answer w) (advance h e w) [e].

Definition succeeded {W A} (o : Outcome W A) : bool :=
  match result o with
  | inr _ => true
  | inl _ => false
  end.

Definition is_download (e : Event) : bool :=
  match e with
  | tc_downloadTool _ _ => true
  | _ => false
  end.

Definition is_restore (e : Event) : bool :=
  match e with
  | Cache_restore _ => true
  | _ => false
  end.

Definition is_exec (e : Event) : bool :=
  match e with
  | exec_call _ => true
  | _ => false
  end.

(** The download calls of a run, and the URLs they ask for. *)
Definition downloads (t : list Event) : list Event := filter is_download t.

Definition url_of (e : Event) : string :=
  match e with
  | tc_downloadTool url _ => url
  | _ => ""
  end.

Definition download_urls (t : list Event) : list string := map url_of (downloads t).

(** ** The cache *)

(** Modelled from the spec: the class [Cache] of [./cache] is not part of
    the sources at hand.  It holds the flag given to its constructor and a
    key; the specification keys an entry by version, architecture and
    platform. *)
Record Cache : Type := mkCache {
  withCache : bool;
  key : string
}.

Definition new_Cache (WithCache : bool) : Cache :=
  {| withCache := WithCache; key := "" |}.

Definition Cache_set_key (c : Cache) (k : string) : Cache :=
  {| withCache := withCache c; key := k |}.

(** ** The class Lazarus *)

Record Lazarus : Type := mkLazarus {
  _Platform : string;
  _Arch : string;
  _LazarusVersion : string;
  _Cache : Cache
}.

Definition set_LazarusVersion (this : Lazarus) (v : string) : Lazarus :=
  {| _Platform := _Platform this; _Arch := _Arch this;
     _LazarusVersion := v; _Cache := _Cache this |}.

Definition set_Cache_key (this : Lazarus) (k : string) : Lazarus :=
  {| _Platform := _Platform this; _Arch := _Arch this;
     _LazarusVersion := _LazarusVersion this;
     _Cache := Cache_set_key (_Cache this) k |}.

(** The composite the constructor and the alias paths store in the key. *)
Definition composite_key (this : Lazarus) : string :=
  _LazarusVersion this ++ "-" ++ _Arch this ++ "-" ++ _Platform this.

Definition key_invariant (this : Lazarus) : Prop :=
  key (_Cache this) = composite_key this.

(** The line [installLazarus] logs first. *)
Definition install_banner (this : Lazarus) : string :=
  "installLazarus -- Installing Lazarus " ++ _LazarusVersion this
  ++ " on platform: " ++ Js.dquote ++ _Platform this ++ Js.dquote
  ++ "; arch: " ++ Js.dquote ++ _Arch this ++ Js.dquote.

(** The object after the alias paths have rewritten version and key. *)
Definition stable_object (this : Lazarus) : Lazarus :=
  {| _Platform := _Platform this;
     _Arch := _Arch this;
     _LazarusVersion := "4.2";
     _Cache := {| withCache := withCache (_Cache this);
                  key := "4.2" ++ "-" ++ _Arch this ++ "-" ++ _Platform this |} |}.

(** The versions GitHub's macOS runners cannot install. *)
Definition below_2_0_8 (ver : string) : bool :=
  (Js.startsWith ver "2.0" && negb (String.eqb ver "2.0.8")) || Js.startsWith ver "1.".

(** The artifacts each platform installs, by the names [_getPackageURL]
    is called with, in the order of the source. *)
Definition required_artifacts (platform : string) : list string :=
  if String.eqb platform "win32" then ["laz"]
  else if String.eqb platform "linux" then ["fpcsrc"; "fpc"; "laz"]
  else if String.eqb platform "darwin" then ["fpcsrc"; "fpc"; "laz"]
  else [].

Section Driver.

Context {W : Type} (h : Host W).

Local Open Scope run_scope.

Definition info (message : string) : M W unit :=
  call h (core_info message) (fun _ => inr tt).

Definition addPath (p : string) : M W unit :=
  call h (core_addPath p) (fun _ => inr tt).

Definition exportVariable (name val : string) : M W unit :=
  call h (core_exportVariable name val) (fun _ => inr tt).

(** [exec] rejects when the command cannot be run or exits with a code
    other than zero; the source never reads the code it resolves to. *)
Definition exec (commandLine : string) : M W unit :=
  call h (exec_call commandLine)
       (fun w => match exec_result h commandLine w with
                 | Some e => inl e
                 | None => inr tt
                 end).

Definition downloadTool (url dest : string) : M W string :=
  call h (tc_downloadTool url dest) (downloadTool_result h url dest).

Definition existsSync (p : string) : M W bool :=
  call h (fs_existsSync p) (fun w => inr (existsSync_result h p w)).

Definition readdirSync (p : string) : M W (list string) :=
  call h (fs_readdirSync p) (readdirSync_result h p).

(** Modelled from the spec: [Cache.restore] is not part of the sources at
    hand.  The restore fails on a cache miss and when the cache is
    disabled, and succeeds when the entry of the key is restored. *)
Definition restore (c : Cache) : M W bool :=
  call h (Cache_restore (key c))
       (fun w => if withCache c then restoreCache_result h (key c) w else inr false).

(** The constructor; the fields [_Platform] and [_Arch] are initialised
    from [os.platform()] and [os.arch()]. *)
Definition new_Lazarus (LazarusVersion : string) (WithCache : bool) : Lazarus :=
  let this := {| _Platform := os_platform h; _Arch := os_arch h;
                 _LazarusVersion := LazarusVersion; _Cache := new_Cache WithCache |} in
  set_Cache_key this (composite_key this).

Definition _getTempDirectory : M W string :=
  let tempDirectory := match env_RUNNER_TEMP h with
                       | Some v => v
                       | None => ""
                       end in
  if String.eqb tempDirectory ""
  then throw (AssertionError "Expected RUNNER_TEMP to be defined")
  else ret (path_join h [tempDirectory; "installers"]).

Definition _getPackageURL (this : Lazarus) (pkg : string) : string :=
  let ver := _LazarusVersion this in
  let names := createLazarusFileName (os_platform h) (os_arch h) ver in
  if String.eqb (_Platform this) "win32" then
    (if String.eqb (_Arch this) "x64"
     then "https://sourceforge.net/projects/lazarus/files/Lazarus%20Windows%2064%20bits/Lazarus%20" ++ ver ++ "/"
     else "https://sourceforge.net/projects/lazarus/files/Lazarus%20Windows%2032%20bits/Lazarus%20" ++ ver ++ "/")
    ++ FileName_text names
  else if String.eqb (_Platform this) "linux" then
    ("https://sourceforge.net/projects/lazarus/files/Lazarus%20Linux%20amd64%20DEB/Lazarus%20" ++ ver ++ "/")
    ++ FileName_get_text names pkg
  else if String.eqb (_Platform this) "darwin" then
    ("https://sourceforge.net/projects/lazarus/files/Lazarus%20macOS%20x86-64/Lazarus%20" ++ ver ++ "/")
    ++ FileName_get_text names pkg
  else "".

(** The [if (cacheRestored) ... else ...] that every artifact goes through:
    the local path is the expected file name when the cache was restored,
    and what [tc.downloadTool] resolves to otherwise. *)
Definition cached_or_download (cacheRestored : bool) (url localName : string) : M W string :=
  if cacheRestored then
    tmp <- _getTempDirectory ;;
    let downloadPath := path_join h [tmp; localName] in
    info ("_downloadLazarus - Using cache restored into " ++ downloadPath) ;;
    ret downloadPath
  else
    tmp <- _getTempDirectory ;;
    downloadPath <- downloadTool url (path_join h [tmp; localName]) ;;
    info ("_downloadLazarus - Downloaded into " ++ downloadPath) ;;
    ret downloadPath.

(** One artifact of the linux branch: the URL is logged, the package is
    taken from the cache or downloaded, then installed with apt.  The
    source writes this block three times, for [fpcsrc] into "fpcsrc.deb",
    for [fpc] into "fpc.deb" and for [laz] into "lazarus.deb". *)
Definition linux_artifact (this : Lazarus) (cacheRestored : bool)
    (pkg localName : string) : M W unit :=
  let url := _getPackageURL this pkg in
  info ("_downloadLazarus - Downloading " ++ url) ;;
  downloadPath_LIN <- cached_or_download cacheRestored url localName ;;
  exec ("sudo apt install -y " ++ downloadPath_LIN).

(** The package inside a mounted disk image: the first volume whose name
    starts with [base], the first ".pkg" in it, or else the first ".mpkg". *)
Definition darwin_package_in_volume (base : string) : M W string :=
  volumes <- readdirSync "/Volumes" ;;
  let vol := filter (fun fn => Js.startsWith fn base) volumes in
  entries <- readdirSync ("/Volumes/" ++ Js.index0_text vol) ;;
  let loc := filter (fun fn => Js.endsWith fn ".pkg") entries in
  loc' <- match loc with
          | [] =>
              entries' <- readdirSync ("/Volumes/" ++ Js.index0_text vol) ;;
              ret (filter (fun fn => Js.endsWith fn ".mpkg") entries')
          | _ :: _ => ret loc
          end ;;
  ret ("/Volumes/" ++ Js.index0_text vol ++ "/" ++ Js.index0_text loc').

(** One artifact of the darwin branch.  The source writes this block three
    times, with [base] "fpcsrc" for [fpcsrc], "fpc" for [fpc] and "lazarus"
    for [laz]. *)
Definition darwin_artifact (this : Lazarus) (cacheRestored : bool)
    (pkg base : string) : M W unit :=
  let url := _getPackageURL this pkg in
  info ("_downloadLazarus - Downloading " ++ url) ;;
  let downloadName := if Js.endsWith url ".dmg" then base ++ ".dmg" else base ++ ".pkg" in
  downloadPath_DAR <- cached_or_download cacheRestored url downloadName ;;
  if String.eqb downloadName (base ++ ".dmg") then
    exec ("sudo hdiutil attach " ++ downloadPath_DAR) ;;
    full_path <- darwin_package_in_volume base ;;
    exec ("sudo installer -package " ++ full_path ++ " -target /")
  else
    exec ("sudo installer -package " ++ downloadPath_DAR ++ " -target /").

Definition lazLibPath : string := "/Library/Lazarus/lazbuild".
Definition lazAppPath : string := "/Applications/Lazarus/lazbuild".

(** The last step of the darwin branch: the lazbuild symlink. *)
Definition darwin_lazbuild_symlink : M W unit :=
  inLib <- existsSync lazLibPath ;;
  if inLib then
    info "_downloadLazarus - Do not need to update lazbuild symlink"
  else
    inApp <- existsSync lazAppPath ;;
    if inApp then
      info ("_downloadLazarus - Updating lazbuild symlink to " ++ lazAppPath) ;;
      exec "rm -rf /usr/local/bin/lazbuild" ;;
      exec ("ln -s " ++ lazAppPath ++ " /usr/local/bin/lazbuild")
    else
      throw (Error ("Could not find lazbuild in " ++ lazLibPath ++ " or " ++ lazAppPath)).

(** The three artifacts of the darwin branch, before the symlink step. *)
Definition darwin_artifacts (this : Lazarus) (cacheRestored : bool) : M W unit :=
  darwin_artifact this cacheRestored "fpcsrc" "fpcsrc" ;;
  darwin_artifact this cacheRestored "fpc" "fpc" ;;
  darwin_artifact this cacheRestored "laz" "lazarus".

(** The win32 branch after the installer is at hand: it is run, and the
    directories are registered. *)
Definition win32_run_installer (this : Lazarus) (downloadPath_WIN : string) : M W unit :=
  tmp <- _getTempDirectory ;;
  let lazarusDir := path_join h [tmp; "lazarus"] in
  exec (downloadPath_WIN ++ " /VERYSILENT /SP- /DIR=" ++ lazarusDir) ;;
  addPath lazarusDir ;;
  info ("_downloadLazarus - Adding '" ++ lazarusDir ++ "' to PATH") ;;
  parts <- match createLazarusFileName (os_platform h) (os_arch h) (_LazarusVersion this) with
           | FNString s => ret (Js.split "-" s)
           | FNObject _ => throw (TypeError "split is not a function")
           end ;;
  fpc_version <- match nth_error parts 3 with
                 | Some v => ret v
                 | None => throw (TypeError "ERR_INVALID_ARG_TYPE")
                 end ;;
  let fpcDir := path_join h [lazarusDir; "fpc"; fpc_version; "bin";
                             "x86_64-" ++ win_arch_tag (os_arch h)] in
  addPath fpcDir ;;
  info ("_downloadLazarus - Added '" ++ fpcDir ++ "' to PATH") ;;
  exportVariable "FPCDIR" (path_join h [lazarusDir; "fpc"; fpc_version]).

(** The win32 branch. *)
Definition win32_install (this : Lazarus) (cacheRestored : bool) : M W unit :=
  let downloadURL := _getPackageURL this "laz" in
  info ("_downloadLazarus - Downloading " ++ downloadURL) ;;
  downloadPath_WIN <- cached_or_download cacheRestored downloadURL
                        ("lazarus-" ++ _LazarusVersion this ++ ".exe") ;;
  win32_run_installer this downloadPath_WIN.

(** The linux branch. *)
Definition linux_install (this : Lazarus) (cacheRestored : bool) : M W unit :=
  exec "sudo apt update" ;;
  linux_artifact this cacheRestored "fpcsrc" "fpcsrc.deb" ;;
  linux_artifact this cacheRestored "fpc" "fpc.deb" ;;
  linux_artifact this cacheRestored "laz" "lazarus.deb".

(** The [switch (this._Platform)] of [_downloadLazarus]. *)
Definition install_for_platform (this : Lazarus) (cacheRestored : bool) : M W unit :=
  if String.eqb (_Platform this) "win32" then win32_install this cacheRestored
  else if String.eqb (_Platform this) "linux" then linux_install this cacheRestored
  else if String.eqb (_Platform this) "darwin" then
    darwin_artifacts this cacheRestored ;;
    darwin_lazbuild_symlink
  else throw (Error ("_downloadLazarus - Platform not implemented: " ++ _Platform this)).

Definition _downloadLazarus (this : Lazarus) : M W unit :=
  cacheRestored <- (if negb (String.eqb (_Platform this) "win32")
                    then restore (_Cache this)
                    else ret false) ;;
  install_for_platform this cacheRestored.


(** The URLs of the artifacts the platform of the object requires. *)
Definition required_urls (this : Lazarus) : list string :=
  map (_getPackageURL this) (required_artifacts (_Platform this)).


(** [installLazarus], with the method it calls to download as a parameter:
    the object is passed on as it is when the call is made, after the
    assignments to [_LazarusVersion] and to the key. *)
Definition installLazarus_body (download : Lazarus -> M W unit) (this : Lazarus) : M W unit :=
  info (install_banner this) ;;
  if String.eqb (_LazarusVersion this) "dist" then
    if String.eqb (_Platform this) "linux" then
      exec "sudo apt update" ;;
      exec "sudo apt install -y lazarus --no-install-recommends"
    else if String.eqb (_Platform this) "win32" then
      let this1 := set_LazarusVersion this StableVersion in
      let this2 := set_Cache_key this1 (composite_key this1) in
      download this2
    else throw (Error ("getLazarus - Platform not supported: " ++ _Platform this))
  else if String.eqb (_LazarusVersion this) "stable" then
    let this1 := set_LazarusVersion this StableVersion in
    let this2 := set_Cache_key this1 (composite_key this1) in
    download this2
  else
    if String.eqb (_Platform this) "darwin" && below_2_0_8 (_LazarusVersion this)
    then throw (Error "GitHub runners do not support Lazarus below 2.0.8 on macos")
    else download this.

Definition installLazarus (this : Lazarus) : M W unit :=
  installLazarus_body _downloadLazarus this.

End Driver.

(** ** Concrete runners

    Small machines on which the definitions evaluate.  The machine has no
    state of its own; commands fail when [failing] says so, a download
    fails when [offline] says so and otherwise resolves to the destination
    it was given, and the file system is what [present] and [listing] say. *)

Definition posix_join (parts : list string) : string := String.concat "/" parts.

Definition sample_host (platform arch : string) (tmp : option string)
    (cacheHit : bool) (failing offline present : string -> bool)
    (listing : string -> list string) : Host unit :=
  {| os_platform := platform;
     os_arch := arch;
     env_RUNNER_TEMP := tmp;
     path_join := posix_join;
     exec_result := fun cmd _ =>
       if failing cmd then Some (Error ("The process failed: " ++ cmd)) else None;
     downloadTool_result := fun url dest _ =>
       if offline url then inl (Error ("Unexpected HTTP response: 404")) else inr dest;
     restoreCache_result := fun _ _ => inr cacheHit;
     existsSync_result := fun p _ => present p;
     readdirSync_result := fun p _ => inr (listing p);
     advance := fun _ w => w |}.

Definition never (_ : string) : bool := false.
Definition no_files (_ : string) : list string := [].

(** A runner on which every command and download succeeds. *)
Definition healthy_host (platform arch : string) (cacheHit : bool) : Host unit :=
  sample_host platform arch (Some "/tmp") cacheHit never never never no_files.

(** A linux runner on which [sudo apt update] fails. *)
Definition linux_apt_broken : Host unit :=
  sample_host "linux" "x64" (Some "/tmp") false
    (fun cmd => String.eqb cmd "sudo apt update") never never no_files.


(** A macOS runner whose installers leave lazbuild where [present] says. *)
Definition darwin_host (cacheHit : bool) (present : string -> bool) : Host unit :=
  sample_host "darwin" "x64" (Some "/tmp") cacheHit never never present
    (fun p => if String.eqb p "/Volumes" then ["fpc"; "fpcsrc"; "lazarus"]
              else ["install.pkg"]).



(** ** Predicates on computations *)

(** No call of the kind [P] is made by [m], on any machine. *)
Definition avoids {W A} (P : Event -> bool) (m : M W A) : Prop :=
  forall w, filter P (trace (m w)) = [].

(** The download calls of [m] ask for an initial part of [urls], in order,
    and for all of [urls] when [m] runs to its end. *)
Definition downloads_within {W A} (urls : list string) (m : M W A) : Prop :=
  forall w,
    (exists n, download_urls (trace (m w)) = firstn n urls)
    /\ (succeeded (m w) = true -> download_urls (trace (m w)) = urls).

(** [o] with the call [e] made before it. *)
Definition after_call {W A} (e : Event) (o : Outcome W A) : Outcome W A :=
  mkOutcome (result o) (world o) (e :: trace o).

(** ** Further predicates on calls *)

(** The root of every URL [_getPackageURL] builds. *)
Definition sourceforge_files : string :=
  "https://sourceforge.net/projects/lazarus/files/".

(** The calls that change the environment of the later steps of the job. *)
Definition is_env_change (e : Event) : bool :=
  match e with
  | core_addPath _ => true
  | core_exportVariable _ _ => true
  | _ => false
  end.

Definition is_readdir (e : Event) : bool :=
  match e with
  | fs_readdirSync _ => true
  | _ => false
  end.

(** The platforms [_downloadLazarus] has a branch for. *)
Definition supported_platform (p : string) : bool :=
  String.eqb p "win32" || String.eqb p "linux" || String.eqb p "darwin".

(** * Properties *)

(** ** Strings *)

Lemma prefix_empty (s : string) : String.prefix "" s = true.
Proof. destruct s; reflexivity. Qed.

Lemma startsWith_append (p r : string) : Js.startsWith (p ++ r) p = true.
Proof.
  unfold Js.startsWith. induction p as [|c p IH]; simpl.
  - destruct r; reflexivity.
  - destruct (ascii_dec c c) as [_|N]; [exact IH | contradiction].
Qed.

Lemma startsWith_inv (s p : string) :
  Js.startsWith s p = true -> exists r, s = p ++ r.
Proof.
  unfold Js.startsWith. revert s. induction p as [|c p IH]; intros s H.
  - exists s. reflexivity.
  - destruct s as [|d s]; simpl in H; [discriminate|].
    destruct (ascii_dec c d) as [->|_]; [|discriminate].
    destruct (IH s H) as [r ->]. exists r. reflexivity.
Qed.

Lemma startsWith_iff (s p : string) :
  Js.startsWith s p = true <-> exists r, s = p ++ r.
Proof.
  split.
  - apply startsWith_inv.
  - intros [r ->]. apply startsWith_append.
Qed.

(** Replaces a version known to start with a literal by the literal followed
    by a rest, so that the tests on it evaluate. *)
Ltac split_prefix H :=
  let r := fresh "rest" in
  apply startsWith_inv in H; destruct H as [r H]; subst; simpl.

(** ** The version resolver *)

Ltac eval_resolver :=
  unfold findFPCVersion, Js.startsWith; cbn; rewrite ?prefix_empty; cbn.

Lemma findFPCVersion_first_match (ver : string) :
  findFPCVersion ver = first_match fpc_rule_table default_fpc_version ver.
Proof.
  unfold findFPCVersion, fpc_rule_table, default_fpc_version. simpl.
  destruct (Js.startsWith ver "2.0.1"); [reflexivity|].
  destruct (Js.startsWith ver "2.0."); [reflexivity|].
  destruct (Js.startsWith ver "1.8"); [reflexivity|]. simpl.
  destruct (String.eqb ver "1.6.4"); [reflexivity|].
  destruct (Js.startsWith ver "1.6"); [reflexivity|].
  destruct (String.eqb ver "1.2.0"); [reflexivity|].
  destruct (Js.startsWith ver "1.0"); [reflexivity|].
  destruct (Js.startsWith ver "1.4"); [reflexivity|].
  destruct (Js.startsWith ver "1.2"); reflexivity.
Qed.

Lemma findFPCVersion_range (ver : string) :
  In (findFPCVersion ver) ["3.2.0"; "3.0.4"; "3.0.2"; "3.0.0"; "2.6.2"; "2.6.4"; "3.2.2"].
Proof.
  unfold findFPCVersion.
  repeat match goal with
         | |- context [if ?b then _ else _] => destruct b
         end; simpl; tauto.
Qed.

(** C1.  The version resolver returns what the ordered rule table gives,
    the first matching rule deciding: versions starting "2.0.1" give
    "3.2.0"; other versions starting "2.0." and versions starting "1.8" give
    "3.0.4"; "1.6.4" gives "3.0.2"; other versions starting "1.6" give
    "3.0.0"; "1.2.0" and versions starting "1.0" give "2.6.2"; versions
    starting "1.4" and the other versions starting "1.2" give "2.6.4". *)
Theorem C1_findFPCVersion_rule_table (ver : string) :
  findFPCVersion ver = first_match fpc_rule_table default_fpc_version ver
  /\ (Js.startsWith ver "2.0.1" = true -> findFPCVersion ver = "3.2.0")
  /\ (Js.startsWith ver "2.0." = true -> Js.startsWith ver "2.0.1" = false ->
      findFPCVersion ver = "3.0.4")
  /\ (Js.startsWith ver "1.8" = true -> findFPCVersion ver = "3.0.4")
  /\ (ver = "1.6.4" -> findFPCVersion ver = "3.0.2")
  /\ (Js.startsWith ver "1.6" = true -> ver <> "1.6.4" -> findFPCVersion ver = "3.0.0")
  /\ (ver = "1.2.0" -> findFPCVersion ver = "2.6.2")
  /\ (Js.startsWith ver "1.0" = true -> findFPCVersion ver = "2.6.2")
  /\ (Js.startsWith ver "1.4" = true -> findFPCVersion ver = "2.6.4")
  /\ (Js.startsWith ver "1.2" = true -> ver <> "1.2.0" -> findFPCVersion ver = "2.6.4").
Proof.
  split; [apply findFPCVersion_first_match|].
  repeat split.
  - intros H. unfold findFPCVersion. rewrite H. reflexivity.
  - intros H N. unfold findFPCVersion. rewrite N, H. reflexivity.
  - intros H. split_prefix H. eval_resolver. reflexivity.
  - intros ->. reflexivity.
  - intros H N. split_prefix H. eval_resolver.
    destruct (String.eqb_spec rest ".4") as [->|_]; [contradiction N|]; reflexivity.
  - intros ->. reflexivity.
  - intros H. split_prefix H. eval_resolver.
    destruct (String.eqb rest ".0"); reflexivity.
  - intros H. split_prefix H. eval_resolver. reflexivity.
  - intros H N. split_prefix H. eval_resolver.
    destruct (String.eqb_spec rest ".0") as [->|_]; [contradiction N|]; reflexivity.
Qed.

Lemma C1_findFPCVersion_rule_table_witness :
  findFPCVersion "2.0.12" = "3.2.0" /\ findFPCVersion "1.2.4" = "2.6.4".
Proof.
  split.
  - apply (proj1 (proj2 (C1_findFPCVersion_rule_table "2.0.12"))). reflexivity.
  - apply (proj2 (proj2 (proj2 (proj2 (proj2 (proj2 (proj2 (proj2 (proj2
             (C1_findFPCVersion_rule_table "1.2.4")))))))))).
    + reflexivity.
    + discriminate.
Defined.

Lemma default_iff_no_rule_matches (ver : string) :
  findFPCVersion ver = default_fpc_version <-> no_rule_matches ver = true.
Proof.
  rewrite findFPCVersion_first_match.
  unfold no_rule_matches, fpc_rule_table, default_fpc_version. simpl.
  destruct (Js.startsWith ver "2.0.1"); simpl; [split; discriminate|].
  destruct (Js.startsWith ver "2.0."); simpl; [split; discriminate|].
  destruct (Js.startsWith ver "1.8"); simpl; [split; discriminate|].
  destruct (String.eqb ver "1.6.4"); simpl; [split; discriminate|].
  destruct (Js.startsWith ver "1.6"); simpl; [split; discriminate|].
  destruct (String.eqb ver "1.2.0"); simpl; [split; discriminate|].
  destruct (Js.startsWith ver "1.0"); simpl; [split; discriminate|].
  destruct (Js.startsWith ver "1.4"); simpl; [split; discriminate|].
  destruct (Js.startsWith ver "1.2"); simpl; [split; discriminate|].
  split; reflexivity.
Qed.

(** C2.  A version that matches none of the rules, the empty string and
    malformed ones included, resolves to the default "3.2.2"; the resolver is
    a total function, whose value on every string is one of the seven
    compiler versions of the table. *)
Theorem C2_findFPCVersion_default (ver : string) :
  (no_rule_matches ver = true -> findFPCVersion ver = "3.2.2")
  /\ In (findFPCVersion ver) ["3.2.0"; "3.0.4"; "3.0.2"; "3.0.0"; "2.6.2"; "2.6.4"; "3.2.2"]
  /\ findFPCVersion "" = "3.2.2"
  /\ findFPCVersion "not a version" = "3.2.2"
  /\ findFPCVersion "2..0" = "3.2.2".
Proof.
  split; [apply default_iff_no_rule_matches|].
  split; [apply findFPCVersion_range|].
  repeat split.
Qed.

Lemma C2_findFPCVersion_default_witness : findFPCVersion "4.2" = "3.2.2".
Proof.
  apply (proj1 (C2_findFPCVersion_default "4.2")). reflexivity.
Defined.

(** ** Artifact names on darwin *)

Lemma darwin_built_laz_not_2_0_8 (p ver : string) :
  laz (darwin_built_names p ver) <> laz darwin_2_0_8_names.
Proof.
  unfold darwin_built_names, darwin_2_0_8_names. simpl. intros H.
  congruence.
Qed.

(** C6.  On darwin the artifact names are the three hardcoded ones exactly
    when the version is "2.0.8"; for every other version they are built by
    concatenation from the version and the resolved compiler version. *)
Theorem C6_darwin_file_names (arch ver : string) :
  (createLazarusFileName "darwin" arch ver
     = FNObject {| laz := "LazarusIDE-2.0.8-macos-x86_64.pkg";
                   fpc := "fpc-3.0.4-macos-x86_64-laz-2.dmg";
                   fpcsrc := "fpc-src-3.0.4-laz.pkg" |}
   <-> ver = "2.0.8")
  /\ (ver <> "2.0.8" ->
      createLazarusFileName "darwin" arch ver
        = FNObject {| laz := "Lazarus-" ++ ver ++ "-macosx-darwin.pkg";
                      fpc := "fpc-" ++ findFPCVersion ver ++ ".intel"
                               ++ (if Js.startsWith (findFPCVersion ver) "2.0"
                                   then "" else "arm64") ++ "-macosx.dmg";
                      fpcsrc := "fpc-src-" ++ findFPCVersion ver ++ "-"
                               ++ darwin_fpcverSuffix (findFPCVersion ver) ++ "-laz."
                               ++ (if Js.startsWith ver "2.0" then "pkg" else "dmg") |}).
Proof.
  unfold createLazarusFileName.
  change (Js.startsWith "darwin" "win") with false.
  change (String.eqb "darwin" "darwin") with true. cbv iota.
  destruct (String.eqb_spec ver "2.0.8") as [->|N]; simpl negb; cbv iota.
  - split; [split; reflexivity|]. intros N. contradiction N. reflexivity.
  - split; [|intros _; reflexivity].
    split; [|intros E; contradiction].
    intros H. exfalso. apply (darwin_built_laz_not_2_0_8 "darwin" ver).
    exact (f_equal (fun f => match f with FNObject o => laz o | FNString t => t end) H).
Qed.

Lemma C6_darwin_file_names_witness :
  createLazarusFileName "darwin" "x64" "4.2"
    = FNObject {| laz := "Lazarus-4.2-macosx-darwin.pkg";
                  fpc := "fpc-3.2.2.intelarm64-macosx.dmg";
                  fpcsrc := "fpc-src-3.2.2-20210709-laz.dmg" |}.
Proof.
  apply (proj2 (C6_darwin_file_names "x64" "4.2")). discriminate.
Defined.

(** ** Running computations *)

Section Runs.

Context {W : Type} (h : Host W).

Local Open Scope run_scope.

Lemma result_bind {A B} (m : M W A) (k : A -> M W B) (w : W) :
  result (bind m k w)
  = match result (m w) with
    | inl e => inl e
    | inr a => result (k a (world (m w)))
    end.
Proof. unfold bind. destruct (result (m w)); reflexivity. Qed.

Lemma trace_bind {A B} (m : M W A) (k : A -> M W B) (w : W) :
  trace (bind m k w)
  = (trace (m w) ++ match result (m w) with
                    | inl _ => []
                    | inr a => trace (k a (world (m w)))
                    end)%list.
Proof.
  unfold bind. destruct (result (m w)); simpl; [rewrite app_nil_r|]; reflexivity.
Qed.

Lemma succeeded_bind {A B} (m : M W A) (k : A -> M W B) (w : W) :
  succeeded (bind m k w) = true ->
  exists a, result (m w) = inr a /\ succeeded (k a (world (m w))) = true.
Proof.
  unfold succeeded. rewrite result_bind.
  destruct (result (m w)) as [e|a]; [discriminate|].
  intros H. exists a. split; [reflexivity | exact H].
Qed.

Lemma avoids_ret {A} (P : Event -> bool) (a : A) : avoids P (ret (W:=W) a).
Proof. intros w. reflexivity. Qed.

Lemma avoids_throw {A} (P : Event -> bool) (e : JsError) : avoids P (throw (W:=W) (A:=A) e).
Proof. intros w. reflexivity. Qed.

Lemma avoids_call {A} (P : Event -> bool) (e : Event) (answer : W -> JsError + A) :
  P e = false -> avoids P (call h e answer).
Proof. intros H w. simpl. rewrite H. reflexivity. Qed.

Lemma avoids_bind {A B} (P : Event -> bool) (m : M W A) (k : A -> M W B) :
  avoids P m -> (forall a, avoids P (k a)) -> avoids P (bind m k).
Proof.
  intros Hm Hk w. rewrite trace_bind, filter_app, Hm.
  destruct (result (m w)) as [e|a]; [reflexivity | apply Hk].
Qed.

End Runs.

(** Decomposes a computation along its binds, its tests and its calls. *)
Ltac avoid_step :=
  match goal with
  | |- avoids _ (bind _ _) => apply avoids_bind; [|intros ?]
  | |- avoids _ (ret _) => apply avoids_ret
  | |- avoids _ (throw _) => apply avoids_throw
  | |- avoids _ (call _ _ _) => apply avoids_call; reflexivity
  | |- avoids _ (if ?b then _ else _) => destruct b
  | |- avoids _ (match ?x with _ => _ end) => destruct x
  end.

Ltac avoid_tac := repeat avoid_step.

Ltac unfold_calls :=
  unfold info, addPath, exportVariable, exec, downloadTool, existsSync, readdirSync, restore.

(** ** installLazarus: the dispatch on the version and the platform *)

Section Dispatch.

Context {W : Type} (h : Host W).

Local Open Scope run_scope.

Lemma install_dist_linux (download : Lazarus -> M W unit) (this : Lazarus) (w : W) :
  _LazarusVersion this = "dist" -> _Platform this = "linux" ->
  installLazarus_body h download this w
  = (info h (install_banner this) ;;
     exec h "sudo apt update" ;;
     exec h "sudo apt install -y lazarus --no-install-recommends") w.
Proof.
  intros Hv Hp. unfold installLazarus_body, install_banner, bind.
  rewrite Hv, Hp. reflexivity.
Qed.

Lemma install_dist_win32 (download : Lazarus -> M W unit) (this : Lazarus) (w : W) :
  _LazarusVersion this = "dist" -> _Platform this = "win32" ->
  installLazarus_body h download this w
  = (info h (install_banner this) ;; download (stable_object this)) w.
Proof.
  intros Hv Hp. unfold installLazarus_body, install_banner, bind.
  rewrite Hv, Hp. reflexivity.
Qed.

Lemma install_dist_other (download : Lazarus -> M W unit) (this : Lazarus) (w : W) :
  _LazarusVersion this = "dist" -> _Platform this <> "linux" -> _Platform this <> "win32" ->
  installLazarus_body h download this w
  = (info h (install_banner this) ;;
     throw (Error ("getLazarus - Platform not supported: " ++ _Platform this))) w.
Proof.
  intros Hv Hl Hw. unfold installLazarus_body, install_banner, bind.
  rewrite Hv. apply String.eqb_neq in Hl, Hw. rewrite Hl, Hw. reflexivity.
Qed.

Lemma install_stable (download : Lazarus -> M W unit) (this : Lazarus) (w : W) :
  _LazarusVersion this = "stable" ->
  installLazarus_body h download this w
  = (info h (install_banner this) ;; download (stable_object this)) w.
Proof.
  intros Hv. unfold installLazarus_body, install_banner, bind.
  rewrite Hv. reflexivity.
Qed.

Lemma install_default (download : Lazarus -> M W unit) (this : Lazarus) (w : W) :
  _LazarusVersion this <> "dist" -> _LazarusVersion this <> "stable" ->
  installLazarus_body h download this w
  = (info h (install_banner this) ;;
     if String.eqb (_Platform this) "darwin" && below_2_0_8 (_LazarusVersion this)
     then throw (Error "GitHub runners do not support Lazarus below 2.0.8 on macos")
     else download this) w.
Proof.
  intros Hd Hs. unfold installLazarus_body, install_banner, below_2_0_8, bind.
  apply String.eqb_neq in Hd, Hs. rewrite Hd, Hs. reflexivity.
Qed.

Lemma below_2_0_8_not_alias (ver : string) :
  below_2_0_8 ver = true -> ver <> "dist" /\ ver <> "stable".
Proof.
  intros H. split; intros ->; discriminate H.
Qed.

End Dispatch.

(** ** Download calls of a run *)

Section Downloads.

Context {W : Type} (h : Host W).

Local Open Scope run_scope.

Lemma urls_bind {A B} (m : M W A) (k : A -> M W B) (w : W) :
  download_urls (trace (bind m k w))
  = (download_urls (trace (m w))
     ++ match result (m w) with
        | inl _ => []
        | inr a => download_urls (trace (k a (world (m w))))
        end)%list.
Proof.
  unfold download_urls, downloads. rewrite trace_bind, filter_app, map_app.
  destruct (result (m w)); reflexivity.
Qed.

Lemma urls_avoided {A} (m : M W A) (w : W) :
  avoids is_download m -> download_urls (trace (m w)) = [].
Proof. intros H. unfold download_urls, downloads. rewrite H. reflexivity. Qed.

Lemma getTempDirectory_defined (tmp : string) (w : W) :
  env_RUNNER_TEMP h = Some tmp -> tmp <> "" ->
  _getTempDirectory h w = ret (path_join h [tmp; "installers"]) w.
Proof.
  intros Ht Hn. unfold _getTempDirectory. rewrite Ht.
  apply String.eqb_neq in Hn. rewrite Hn. reflexivity.
Qed.

Lemma getTempDirectory_quiet (P : Event -> bool) : avoids P (_getTempDirectory h).
Proof. unfold _getTempDirectory. avoid_tac. Qed.

Lemma win32_run_installer_quiet (this : Lazarus) (downloadPath_WIN : string) :
  avoids is_download (win32_run_installer h this downloadPath_WIN).
Proof.
  unfold win32_run_installer, _getTempDirectory. unfold_calls. avoid_tac.
Qed.

Lemma cached_quiet (url localName : string) :
  avoids is_download (cached_or_download h true url localName).
Proof.
  unfold cached_or_download, _getTempDirectory. unfold_calls. avoid_tac.
Qed.

Lemma urls_downloadTool (url dest : string) (w : W) :
  download_urls (trace (downloadTool h url dest w)) = [url].
Proof. reflexivity. Qed.

Lemma urls_info (message : string) (w : W) :
  download_urls (trace (info h message w)) = [].
Proof. reflexivity. Qed.

(** With RUNNER_TEMP defined, the download branch issues its call. *)
Lemma download_issued (url localName tmp : string) (w : W) :
  env_RUNNER_TEMP h = Some tmp -> tmp <> "" ->
  download_urls (trace (cached_or_download h false url localName w)) = [url].
Proof.
  intros Ht Hn. unfold cached_or_download.
  rewrite urls_bind, (getTempDirectory_defined tmp w Ht Hn).
  cbn [ret result world trace]. change (download_urls []) with (@nil string).
  cbn [app]. rewrite urls_bind, urls_downloadTool.
  destruct (result _); [reflexivity|].
  rewrite urls_avoided; [reflexivity|]. unfold_calls. avoid_tac.
Qed.

Lemma win32_download_issued (this : Lazarus) (w : W) (tmp : string) :
  _Platform this = "win32" -> env_RUNNER_TEMP h = Some tmp -> tmp <> "" ->
  download_urls (trace (_downloadLazarus h this w)) = [_getPackageURL h this "laz"].
Proof.
  intros Hp Ht Hn.
  unfold _downloadLazarus, install_for_platform. rewrite Hp.
  cbn [String.eqb Ascii.eqb Bool.eqb negb].
  rewrite urls_bind. cbn [ret result world trace].
  change (download_urls []) with (@nil string). cbn [app].
  unfold win32_install. rewrite urls_bind, urls_info.
  cbn [info call result world app].
  rewrite urls_bind, (download_issued _ _ tmp _ Ht Hn).
  destruct (result _); [reflexivity|].
  rewrite (urls_avoided _ _ (win32_run_installer_quiet this _)). reflexivity.
Qed.

End Downloads.

(** C4.  On darwin, for a version that starts with "1.", or that starts
    with "2.0" and is not "2.0.8", [installLazarus] raises the error
    "GitHub runners do not support Lazarus below 2.0.8 on macos"; the only
    call made before is the log line, so that nothing is restored,
    downloaded or executed. *)
Theorem C4_darwin_unsupported_version {W : Type} (h : Host W)
    (ver : string) (WithCache : bool) (w : W) :
  os_platform h = "darwin" ->
  (Js.startsWith ver "1." = true
   \/ (Js.startsWith ver "2.0" = true /\ ver <> "2.0.8")) ->
  let this := new_Lazarus h ver WithCache in
  let o := installLazarus h this w in
  result o = inl (Error "GitHub runners do not support Lazarus below 2.0.8 on macos")
  /\ trace o = [core_info (install_banner this)]
  /\ filter is_download (trace o) = []
  /\ filter is_exec (trace o) = []
  /\ filter is_restore (trace o) = [].
Proof.
  intros Hp Hv this o.
  assert (Hb : below_2_0_8 ver = true).
  { unfold below_2_0_8. destruct Hv as [H1|[H2 N]].
    - rewrite H1. apply orb_true_r.
    - rewrite H2. apply String.eqb_neq in N. rewrite N. reflexivity. }
  destruct (below_2_0_8_not_alias ver Hb) as [Nd Ns].
  assert (Ho : o = mkOutcome
                     (inl (Error "GitHub runners do not support Lazarus below 2.0.8 on macos"))
                     (advance h (core_info (install_banner this)) w)
                     [core_info (install_banner this)]).
  { unfold o, installLazarus. rewrite install_default by assumption.
    unfold bind, info, call. cbn [result world trace].
    replace (_Platform this) with "darwin" by (symmetry; exact Hp).
    replace (_LazarusVersion this) with ver by reflexivity.
    rewrite Hb. reflexivity. }
  rewrite Ho. repeat split.
Qed.

Lemma C4_darwin_unsupported_version_witness :
  result (installLazarus (darwin_host false never)
            (new_Lazarus (darwin_host false never) "1.5" true) tt)
  = inl (Error "GitHub runners do not support Lazarus below 2.0.8 on macos").
Proof.
  apply (C4_darwin_unsupported_version (darwin_host false never) "1.5" true tt).
  - reflexivity.
  - left. reflexivity.
Defined.

(** ** The alias "dist" *)

Section Dist.

Context {W : Type} (h : Host W).

Local Open Scope run_scope.

(** The two commands of the repository install. *)
Lemma apt_install_quiet :
  avoids is_download
    (exec h "sudo apt update" ;;
     exec h "sudo apt install -y lazarus --no-install-recommends").
Proof. unfold_calls. avoid_tac. Qed.

Lemma apt_install_trace (w : W) :
  trace ((exec h "sudo apt update" ;;
          exec h "sudo apt install -y lazarus --no-install-recommends") w)
  = exec_call "sudo apt update"
    :: match exec_result h "sudo apt update" w with
       | Some _ => []
       | None => [exec_call "sudo apt install -y lazarus --no-install-recommends"]
       end.
Proof.
  rewrite trace_bind. unfold exec at 1 2. cbn [call result trace world app].
  destruct (exec_result h "sudo apt update" w); reflexivity.
Qed.

Lemma stable_url (this : Lazarus) :
  _Platform this = "win32" -> os_platform h = "win32" ->
  _getPackageURL h (stable_object this) "laz"
  = "https://sourceforge.net/projects/lazarus/files/Lazarus%20Windows%20"
    ++ (if String.eqb (_Arch this) "x64" then "64" else "32")
    ++ "%20bits/Lazarus%204.2/lazarus-4.2-fpc-3.2.2-"
    ++ win_arch_tag (os_arch h) ++ ".exe".
Proof.
  intros Hp Ho. unfold _getPackageURL, stable_object.
  cbn [_Platform _Arch _LazarusVersion]. rewrite Hp, Ho.
  destruct (String.eqb (_Arch this) "x64"); reflexivity.
Qed.

End Dist.

(** C3.  With the alias "dist" as the requested version: on linux
    [installLazarus] is the repository install, apt update and then apt
    install lazarus, and no download call is made; on win32 the version
    becomes "4.2", the key follows, and [_downloadLazarus] runs on that
    object, asking for the installer of 4.2; on every other platform the
    run fails with the error "getLazarus - Platform not supported". *)
Theorem C3_dist_alias {W : Type} (h : Host W) (WithCache : bool) (w : W) :
  let this := new_Lazarus h "dist" WithCache in
  let o := installLazarus h this w in
  (os_platform h = "linux" ->
     o = bind (info h (install_banner this))
           (fun _ => bind (exec h "sudo apt update")
              (fun _ => exec h "sudo apt install -y lazarus --no-install-recommends")) w
     /\ downloads (trace o) = []
     /\ trace o
        = core_info (install_banner this)
          :: exec_call "sudo apt update"
          :: match exec_result h "sudo apt update"
                     (advance h (core_info (install_banner this)) w) with
             | Some _ => []
             | None => [exec_call "sudo apt install -y lazarus --no-install-recommends"]
             end)
  /\ (os_platform h = "win32" ->
     o = bind (info h (install_banner this))
           (fun _ => _downloadLazarus h (stable_object this)) w
     /\ _LazarusVersion (stable_object this) = "4.2"
     /\ key (_Cache (stable_object this)) = "4.2-" ++ os_arch h ++ "-win32"
     /\ forall tmp, env_RUNNER_TEMP h = Some tmp -> tmp <> "" ->
        download_urls (trace o)
        = ["https://sourceforge.net/projects/lazarus/files/Lazarus%20Windows%20"
           ++ (if String.eqb (os_arch h) "x64" then "64" else "32")
           ++ "%20bits/Lazarus%204.2/lazarus-4.2-fpc-3.2.2-"
           ++ win_arch_tag (os_arch h) ++ ".exe"])
  /\ (os_platform h <> "linux" -> os_platform h <> "win32" ->
     result o = inl (Error ("getLazarus - Platform not supported: " ++ os_platform h))
     /\ trace o = [core_info (install_banner this)]).
Proof.
  intros this o.
  assert (Hv : _LazarusVersion this = "dist") by reflexivity.
  assert (Hpl : _Platform this = os_platform h) by reflexivity.
  assert (Har : _Arch this = os_arch h) by reflexivity.
  split; [|split].
  - intros Hp. rewrite <- Hpl in Hp.
    assert (Ho : o = bind (info h (install_banner this))
           (fun _ => bind (exec h "sudo apt update")
              (fun _ => exec h "sudo apt install -y lazarus --no-install-recommends")) w).
    { unfold o, installLazarus. apply install_dist_linux; assumption. }
    split; [exact Ho|]. rewrite Ho. split.
    + unfold downloads. rewrite trace_bind, filter_app.
      cbn [info call result trace world filter is_download app].
      apply apt_install_quiet.
    + rewrite trace_bind. cbn [info call result trace world app].
      rewrite apt_install_trace. reflexivity.
  - intros Hp. pose proof Hp as Hos. rewrite <- Hpl in Hp.
    assert (Ho : o = bind (info h (install_banner this))
                       (fun _ => _downloadLazarus h (stable_object this)) w).
    { unfold o, installLazarus. apply install_dist_win32; assumption. }
    split; [exact Ho|]. split; [reflexivity|].
    split; [unfold stable_object; cbn [_Cache key]; rewrite Hp, Har; reflexivity|].
    intros tmp Ht Hn. rewrite Ho, urls_bind, urls_info.
    cbn [info call result world app].
    rewrite (win32_download_issued h (stable_object this) _ tmp Hp Ht Hn).
    rewrite (stable_url h this Hp Hos), Har. reflexivity.
  - intros Hl Hw. rewrite <- Hpl in Hl, Hw.
    assert (Ho : o = bind (info h (install_banner this))
                       (fun _ => throw (Error ("getLazarus - Platform not supported: "
                                               ++ _Platform this))) w).
    { unfold o, installLazarus. apply install_dist_other; assumption. }
    rewrite Ho. split; reflexivity.
Qed.

Lemma C3_dist_alias_witness :
  trace (installLazarus (healthy_host "linux" "x64" false)
           (new_Lazarus (healthy_host "linux" "x64" false) "dist" true) tt)
  = [core_info (install_banner (new_Lazarus (healthy_host "linux" "x64" false) "dist" true));
     exec_call "sudo apt update";
     exec_call "sudo apt install -y lazarus --no-install-recommends"]
  /\ download_urls
       (trace (installLazarus (healthy_host "win32" "x64" false)
                 (new_Lazarus (healthy_host "win32" "x64" false) "dist" true) tt))
     = ["https://sourceforge.net/projects/lazarus/files/Lazarus%20Windows%2064%20bits/Lazarus%204.2/lazarus-4.2-fpc-3.2.2-win64.exe"]
  /\ result (installLazarus (darwin_host false never)
               (new_Lazarus (darwin_host false never) "dist" true) tt)
     = inl (Error "getLazarus - Platform not supported: darwin").
Proof.
  split; [|split].
  - apply (proj1 (C3_dist_alias (healthy_host "linux" "x64" false) true tt)). reflexivity.
  - apply (proj2 (proj2 (proj2 (proj1 (proj2
             (C3_dist_alias (healthy_host "win32" "x64" false) true tt)) eq_refl)))
             "/tmp").
    + reflexivity.
    + discriminate.
  - apply (proj2 (proj2 (C3_dist_alias (darwin_host false never) true tt)));
      discriminate.
Defined.

(** ** Stepping through a computation *)

Section Steps.

Context {W : Type} (h : Host W).

Local Open Scope run_scope.

Lemma outcome_eta {A} (o : Outcome W A) :
  mkOutcome (result o) (world o) (trace o) = o.
Proof. destruct o; reflexivity. Qed.

Lemma bind_ret {A B} (a : A) (k : A -> M W B) (w : W) :
  bind (ret a) k w = k a w.
Proof. unfold bind, ret. cbn [result world trace app]. apply outcome_eta. Qed.

Lemma bind_throw {A B} (e : JsError) (k : A -> M W B) (w : W) :
  bind (throw e) k w = mkOutcome (inl e) w [].
Proof. reflexivity. Qed.

Lemma bind_call_ok {A B} (e : Event) (answer : W -> JsError + A) (k : A -> M W B)
    (w : W) (a : A) :
  answer w = inr a ->
  bind (call h e answer) k w = after_call e (k a (advance h e w)).
Proof.
  intros H. unfold bind, call, after_call. cbn [result world trace]. rewrite H.
  reflexivity.
Qed.

Lemma bind_call_err {A B} (e : Event) (answer : W -> JsError + A) (k : A -> M W B)
    (w : W) (err : JsError) :
  answer w = inl err ->
  bind (call h e answer) k w = mkOutcome (inl err) (advance h e w) [e].
Proof.
  intros H. unfold bind, call. cbn [result world trace]. rewrite H. reflexivity.
Qed.

Lemma bind_info {B} (message : string) (k : unit -> M W B) (w : W) :
  bind (info h message) k w
  = after_call (core_info message) (k tt (advance h (core_info message) w)).
Proof. apply bind_call_ok. reflexivity. Qed.

Lemma bind_addPath {B} (p : string) (k : unit -> M W B) (w : W) :
  bind (addPath h p) k w
  = after_call (core_addPath p) (k tt (advance h (core_addPath p) w)).
Proof. apply bind_call_ok. reflexivity. Qed.

Lemma bind_existsSync {B} (p : string) (k : bool -> M W B) (w : W) :
  bind (existsSync h p) k w
  = after_call (fs_existsSync p)
      (k (existsSync_result h p w) (advance h (fs_existsSync p) w)).
Proof. apply bind_call_ok. reflexivity. Qed.

Lemma bind_exec {B} (cmd : string) (k : unit -> M W B) (w : W) :
  bind (exec h cmd) k w
  = match exec_result h cmd w with
    | Some err => mkOutcome (inl err) (advance h (exec_call cmd) w) [exec_call cmd]
    | None => after_call (exec_call cmd) (k tt (advance h (exec_call cmd) w))
    end.
Proof.
  unfold exec. destruct (exec_result h cmd w) as [err|] eqn:E.
  - apply bind_call_err. rewrite E. reflexivity.
  - apply bind_call_ok. rewrite E. reflexivity.
Qed.

Lemma bind_downloadTool {B} (url dest : string) (k : string -> M W B) (w : W) :
  bind (downloadTool h url dest) k w
  = match downloadTool_result h url dest w with
    | inl err => mkOutcome (inl err) (advance h (tc_downloadTool url dest) w)
                   [tc_downloadTool url dest]
    | inr p => after_call (tc_downloadTool url dest)
                 (k p (advance h (tc_downloadTool url dest) w))
    end.
Proof.
  unfold downloadTool. destruct (downloadTool_result h url dest w) as [err|p] eqn:E.
  - apply bind_call_err. exact E.
  - apply bind_call_ok. exact E.
Qed.

Lemma bind_assoc {A B C} (m : M W A) (f : A -> M W B) (g : B -> M W C) (w : W) :
  bind (bind m f) g w = bind m (fun a => bind (f a) g) w.
Proof.
  unfold bind. cbn [result world trace].
  destruct (result (m w)) as [e|a]; cbn [result world trace]; [reflexivity|].
  destruct (result (f a (world (m w)))) as [e|b]; cbn [result world trace];
    [reflexivity|].
  rewrite app_assoc. reflexivity.
Qed.

Lemma succeeded_after_call {A} (e : Event) (o : Outcome W A) :
  succeeded (after_call e o) = succeeded o.
Proof. reflexivity. Qed.

End Steps.

(** ** The lazbuild symlink on darwin *)

Section Symlink.

Context {W : Type} (h : Host W).

Local Open Scope run_scope.

Lemma symlink_in_Library (w : W) :
  existsSync_result h lazLibPath w = true ->
  darwin_lazbuild_symlink h w
  = mkOutcome (inr tt)
      (advance h (core_info "_downloadLazarus - Do not need to update lazbuild symlink")
         (advance h (fs_existsSync lazLibPath) w))
      [fs_existsSync lazLibPath;
       core_info "_downloadLazarus - Do not need to update lazbuild symlink"].
Proof.
  intros H. unfold darwin_lazbuild_symlink. rewrite bind_existsSync, H. reflexivity.
Qed.

Lemma symlink_in_Applications (w : W) :
  existsSync_result h lazLibPath w = false ->
  existsSync_result h lazAppPath (advance h (fs_existsSync lazLibPath) w) = true ->
  darwin_lazbuild_symlink h w
  = after_call (fs_existsSync lazLibPath)
      (after_call (fs_existsSync lazAppPath)
         (after_call
            (core_info "_downloadLazarus - Updating lazbuild symlink to /Applications/Lazarus/lazbuild")
            ((exec h "rm -rf /usr/local/bin/lazbuild" ;;
              exec h "ln -s /Applications/Lazarus/lazbuild /usr/local/bin/lazbuild")
               (advance h
                  (core_info "_downloadLazarus - Updating lazbuild symlink to /Applications/Lazarus/lazbuild")
                  (advance h (fs_existsSync lazAppPath)
                     (advance h (fs_existsSync lazLibPath) w)))))).
Proof.
  intros Hl Ha. unfold darwin_lazbuild_symlink.
  rewrite bind_existsSync, Hl, bind_existsSync, Ha, bind_info. reflexivity.
Qed.

Lemma symlink_missing (w : W) :
  existsSync_result h lazLibPath w = false ->
  existsSync_result h lazAppPath (advance h (fs_existsSync lazLibPath) w) = false ->
  darwin_lazbuild_symlink h w
  = mkOutcome
      (inl (Error "Could not find lazbuild in /Library/Lazarus/lazbuild or /Applications/Lazarus/lazbuild"))
      (advance h (fs_existsSync lazAppPath) (advance h (fs_existsSync lazLibPath) w))
      [fs_existsSync lazLibPath; fs_existsSync lazAppPath].
Proof.
  intros Hl Ha. unfold darwin_lazbuild_symlink.
  rewrite bind_existsSync, Hl, bind_existsSync, Ha. reflexivity.
Qed.

Lemma relink_trace (w : W) :
  trace ((exec h "rm -rf /usr/local/bin/lazbuild" ;;
          exec h "ln -s /Applications/Lazarus/lazbuild /usr/local/bin/lazbuild") w)
  = exec_call "rm -rf /usr/local/bin/lazbuild"
    :: match exec_result h "rm -rf /usr/local/bin/lazbuild" w with
       | Some _ => []
       | None => [exec_call "ln -s /Applications/Lazarus/lazbuild /usr/local/bin/lazbuild"]
       end.
Proof.
  rewrite bind_exec.
  destruct (exec_result h "rm -rf /usr/local/bin/lazbuild" w); reflexivity.
Qed.

(** The darwin branch is the three artifacts, then the symlink step. *)
Lemma download_darwin (this : Lazarus) (w : W) :
  _Platform this = "darwin" ->
  _downloadLazarus h this w
  = bind (bind (restore h (_Cache this)) (darwin_artifacts h this))
         (fun _ => darwin_lazbuild_symlink h) w.
Proof.
  intros Hp. unfold _downloadLazarus, install_for_platform. rewrite Hp.
  cbn [String.eqb Ascii.eqb Bool.eqb negb]. rewrite bind_assoc. reflexivity.
Qed.

End Symlink.

(** C7.  The darwin branch of [_downloadLazarus] ends with the symlink
    step.  When /Library/Lazarus/lazbuild exists the step only logs, and
    runs no command.  Otherwise, when /Applications/Lazarus/lazbuild exists,
    it runs [rm -rf /usr/local/bin/lazbuild] and then [ln -s] to the
    Applications path.  Otherwise it raises "Could not find lazbuild in ...".
    A failure of the step is the failure of the run: the error is the
    result of [_downloadLazarus], and no call follows it. *)
Theorem C7_darwin_lazbuild_symlink {W : Type} (h : Host W) (this : Lazarus) (w : W) :
  _Platform this = "darwin" ->
  let installs := bind (restore h (_Cache this)) (darwin_artifacts h this) in
  let o := _downloadLazarus h this w in
  o = bind installs (fun _ => darwin_lazbuild_symlink h) w
  /\ (succeeded (installs w) = true ->
      let w1 := world (installs w) in
      let w2 := advance h (fs_existsSync lazLibPath) w1 in
      let w3 := advance h (fs_existsSync lazAppPath) w2 in
      let w4 := advance h
                  (core_info "_downloadLazarus - Updating lazbuild symlink to /Applications/Lazarus/lazbuild")
                  w3 in
      (existsSync_result h lazLibPath w1 = true ->
         result o = inr tt
         /\ trace o
            = (trace (installs w)
               ++ [fs_existsSync lazLibPath;
                   core_info "_downloadLazarus - Do not need to update lazbuild symlink"])%list)
      /\ (existsSync_result h lazLibPath w1 = false ->
          existsSync_result h lazAppPath w2 = true ->
          result o
          = result (bind (exec h "rm -rf /usr/local/bin/lazbuild")
                      (fun _ => exec h "ln -s /Applications/Lazarus/lazbuild /usr/local/bin/lazbuild")
                      w4)
          /\ trace o
             = (trace (installs w)
                ++ fs_existsSync lazLibPath
                   :: fs_existsSync lazAppPath
                   :: core_info "_downloadLazarus - Updating lazbuild symlink to /Applications/Lazarus/lazbuild"
                   :: exec_call "rm -rf /usr/local/bin/lazbuild"
                   :: match exec_result h "rm -rf /usr/local/bin/lazbuild" w4 with
                      | Some _ => []
                      | None => [exec_call "ln -s /Applications/Lazarus/lazbuild /usr/local/bin/lazbuild"]
                      end)%list)
      /\ (existsSync_result h lazLibPath w1 = false ->
          existsSync_result h lazAppPath w2 = false ->
          result o
          = inl (Error "Could not find lazbuild in /Library/Lazarus/lazbuild or /Applications/Lazarus/lazbuild")
          /\ trace o
             = (trace (installs w)
                ++ [fs_existsSync lazLibPath; fs_existsSync lazAppPath])%list)).
Proof.
  intros Hp installs o.
  assert (Ho : o = bind installs (fun _ => darwin_lazbuild_symlink h) w)
    by (apply download_darwin; exact Hp).
  split; [exact Ho|].
  intros Hs w1 w2 w3 w4.
  assert (Hr : result (installs w) = inr tt).
  { unfold succeeded in Hs. destruct (result (installs w)) as [e|[]];
      [discriminate | reflexivity]. }
  assert (Hres : result o = result (darwin_lazbuild_symlink h w1)).
  { rewrite Ho, result_bind, Hr. reflexivity. }
  assert (Htr : trace o = (trace (installs w) ++ trace (darwin_lazbuild_symlink h w1))%list).
  { rewrite Ho, trace_bind, Hr. reflexivity. }
  rewrite Hres, Htr. split; [|split].
  - intros Hl. rewrite (symlink_in_Library h w1 Hl). split; reflexivity.
  - intros Hl Ha. rewrite (symlink_in_Applications h w1 Hl Ha).
    cbn [after_call result trace]. rewrite relink_trace. split; reflexivity.
  - intros Hl Ha. rewrite (symlink_missing h w1 Hl Ha). split; reflexivity.
Qed.

Lemma C7_darwin_lazbuild_symlink_witness :
  result (_downloadLazarus (darwin_host true never)
            (new_Lazarus (darwin_host true never) "2.0.8" true) tt)
  = inl (Error "Could not find lazbuild in /Library/Lazarus/lazbuild or /Applications/Lazarus/lazbuild").
Proof.
  apply (proj2 (proj2 (proj2
           (C7_darwin_lazbuild_symlink (darwin_host true never)
              (new_Lazarus (darwin_host true never) "2.0.8" true) tt eq_refl)
           eq_refl))); reflexivity.
Defined.

(** ** The cache on win32 *)

Section Win32Cache.

Context {W : Type} (h : Host W).

Local Open Scope run_scope.

Lemma download_win32 (this : Lazarus) (w : W) :
  _Platform this = "win32" ->
  _downloadLazarus h this w = win32_install h this false w.
Proof.
  intros Hp. unfold _downloadLazarus, install_for_platform. rewrite Hp.
  cbn [String.eqb Ascii.eqb Bool.eqb negb]. apply bind_ret.
Qed.






End Win32Cache.




(** ** The cache key *)

Section Key.

Context {W : Type} (h : Host W).

Local Open Scope run_scope.

Lemma constructor_key (ver : string) (WithCache : bool) :
  key_invariant (new_Lazarus h ver WithCache).
Proof. reflexivity. Qed.

Lemma stable_object_key (this : Lazarus) : key_invariant (stable_object this).
Proof. reflexivity. Qed.

(** The assignments of the alias paths, written out. *)
Lemma alias_assignments (this : Lazarus) :
  set_Cache_key (set_LazarusVersion this StableVersion)
    (composite_key (set_LazarusVersion this StableVersion))
  = stable_object this.
Proof. reflexivity. Qed.

(** [installLazarus] calls its download method only on objects whose key
    is the composite of their version, architecture and platform: two
    methods that agree on such objects give the same run. *)
Lemma download_called_with_key (dl1 dl2 : Lazarus -> M W unit) :
  (forall st w, key_invariant st -> dl1 st w = dl2 st w) ->
  forall this w, key_invariant this ->
    installLazarus_body h dl1 this w = installLazarus_body h dl2 this w.
Proof.
  intros Hdl this w Hk. unfold installLazarus_body.
  rewrite !bind_info. f_equal. rewrite !alias_assignments.
  destruct (String.eqb (_LazarusVersion this) "dist").
  - destruct (String.eqb (_Platform this) "linux"); [reflexivity|].
    destruct (String.eqb (_Platform this) "win32"); [|reflexivity].
    apply Hdl, stable_object_key.
  - destruct (String.eqb (_LazarusVersion this) "stable").
    + apply Hdl, stable_object_key.
    + destruct (String.eqb (_Platform this) "darwin" && below_2_0_8 (_LazarusVersion this));
        [reflexivity|].
      apply Hdl, Hk.
Qed.

End Key.

(** C10.  Whenever [_downloadLazarus] is invoked the key of the cache is
    the composite version-architecture-platform of the object: the
    constructor makes it so, the paths of "stable" and of "dist" on win32
    assign the version and then the key before they call it, and the
    remaining path calls it on the object as constructed. *)
Theorem C10_cache_key_invariant {W : Type} (h : Host W) :
  (forall ver WithCache,
     key (_Cache (new_Lazarus h ver WithCache))
     = ver ++ "-" ++ os_arch h ++ "-" ++ os_platform h)
  /\ (forall (download : Lazarus -> M W unit) this w,
        _LazarusVersion this = "stable" ->
        installLazarus_body h download this w
        = bind (info h (install_banner this)) (fun _ => download (stable_object this)) w
        /\ key_invariant (stable_object this))
  /\ (forall (download : Lazarus -> M W unit) this w,
        _LazarusVersion this = "dist" -> _Platform this = "win32" ->
        installLazarus_body h download this w
        = bind (info h (install_banner this)) (fun _ => download (stable_object this)) w
        /\ key_invariant (stable_object this))
  /\ (forall (dl1 dl2 : Lazarus -> M W unit),
        (forall st w, key_invariant st -> dl1 st w = dl2 st w) ->
        forall ver WithCache w,
          installLazarus_body h dl1 (new_Lazarus h ver WithCache) w
          = installLazarus_body h dl2 (new_Lazarus h ver WithCache) w).
Proof.
  split; [reflexivity|].
  split; [intros download this w Hv; split;
          [apply install_stable; exact Hv | apply stable_object_key]|].
  split; [intros download this w Hv Hp; split;
          [apply install_dist_win32; assumption | apply stable_object_key]|].
  intros dl1 dl2 Hdl ver WithCache w.
  apply download_called_with_key; [exact Hdl | apply constructor_key].
Qed.

(** A download method that refuses an object whose key is not the
    composite: [installLazarus] never makes it refuse. *)
Lemma C10_cache_key_invariant_witness :
  installLazarus_body (healthy_host "win32" "x64" false)
    (fun st => if String.eqb (key (_Cache st)) (composite_key st)
               then _downloadLazarus (healthy_host "win32" "x64" false) st
               else throw (Error "stale key"))
    (new_Lazarus (healthy_host "win32" "x64" false) "stable" true) tt
  = installLazarus (healthy_host "win32" "x64" false)
      (new_Lazarus (healthy_host "win32" "x64" false) "stable" true) tt.
Proof.
  apply (proj2 (proj2 (proj2 (C10_cache_key_invariant (healthy_host "win32" "x64" false))))).
  intros st w H. unfold key_invariant in H. rewrite H, String.eqb_refl. reflexivity.
Defined.

(** ** PATH and FPCDIR on win32 *)

Lemma split_component (sep : ascii) (a b : string) :
  Js.includes a sep = false ->
  Js.split sep (a ++ String sep b) = a :: Js.split sep b.
Proof.
  induction a as [|c a IH]; intros H.
  - simpl. rewrite Ascii.eqb_refl. reflexivity.
  - simpl in H. apply orb_false_iff in H. destruct H as [Hc Ha].
    simpl. rewrite Hc, (IH Ha). reflexivity.
Qed.

Lemma findFPCVersion_no_dash (ver : string) :
  Js.includes (findFPCVersion ver) "-" = false.
Proof.
  pose proof (findFPCVersion_range ver) as H. simpl in H.
  repeat (destruct H as [H|H]; [rewrite <- H; reflexivity|]).
  contradiction.
Qed.

(** The components of the installer's file name, for a version without a
    dash: the fourth is the compiler version. *)
Lemma installer_name_parts (ver arch : string) :
  Js.includes ver "-" = false ->
  Js.split "-" ("lazarus-" ++ ver ++ "-fpc-" ++ findFPCVersion ver ++ "-"
                ++ win_arch_tag arch ++ ".exe")
  = "lazarus" :: ver :: "fpc" :: findFPCVersion ver
      :: Js.split "-" (win_arch_tag arch ++ ".exe").
Proof.
  intros Hv.
  change ("lazarus-" ++ ver ++ "-fpc-" ++ findFPCVersion ver ++ "-"
          ++ win_arch_tag arch ++ ".exe")
    with ("lazarus" ++ String "-" (ver ++ String "-" ("fpc" ++ String "-"
            (findFPCVersion ver ++ String "-" (win_arch_tag arch ++ ".exe"))))).
  rewrite (split_component "-" "lazarus") by reflexivity.
  rewrite (split_component "-" ver) by exact Hv.
  rewrite (split_component "-" "fpc") by reflexivity.
  rewrite (split_component "-" (findFPCVersion ver)) by apply findFPCVersion_no_dash.
  reflexivity.
Qed.

Section Win32Paths.

Context {W : Type} (h : Host W).

Local Open Scope run_scope.

Lemma win32_run_installer_success (this : Lazarus) (downloadPath_WIN : string) (w : W) :
  os_platform h = "win32" ->
  succeeded (win32_run_installer h this downloadPath_WIN w) = true ->
  exists tmp v,
    env_RUNNER_TEMP h = Some tmp
    /\ nth_error
         (Js.split "-" ("lazarus-" ++ _LazarusVersion this ++ "-fpc-"
                        ++ findFPCVersion (_LazarusVersion this) ++ "-"
                        ++ win_arch_tag (os_arch h) ++ ".exe")) 3 = Some v
    /\ let lazarusDir := path_join h [path_join h [tmp; "installers"]; "lazarus"] in
       let fpcDir := path_join h [lazarusDir; "fpc"; v; "bin";
                                  "x86_64-" ++ win_arch_tag (os_arch h)] in
       trace (win32_run_installer h this downloadPath_WIN w)
       = [exec_call (downloadPath_WIN ++ " /VERYSILENT /SP- /DIR=" ++ lazarusDir);
          core_addPath lazarusDir;
          core_info ("_downloadLazarus - Adding '" ++ lazarusDir ++ "' to PATH");
          core_addPath fpcDir;
          core_info ("_downloadLazarus - Added '" ++ fpcDir ++ "' to PATH");
          core_exportVariable "FPCDIR" (path_join h [lazarusDir; "fpc"; v])].
Proof.
  intros Hos. unfold win32_run_installer, _getTempDirectory, createLazarusFileName.
  rewrite Hos. change (Js.startsWith "win32" "win") with true. cbv iota.
  destruct (env_RUNNER_TEMP h) as [tmp|];
    [|cbn [String.eqb]; rewrite bind_throw; discriminate].
  destruct (String.eqb tmp ""); [rewrite bind_throw; discriminate|].
  rewrite bind_ret, bind_exec.
  destruct (exec_result h _ w); [discriminate|].
  rewrite bind_addPath, bind_info, bind_ret.
  destruct (nth_error _ 3) as [v|]; [|rewrite bind_throw; discriminate].
  rewrite bind_ret, bind_addPath, bind_info. intros _.
  exists tmp, v. split; [reflexivity|]. split; reflexivity.
Qed.

End Win32Paths.

(** C8.  A win32 run of [_downloadLazarus] that succeeds ends with these
    calls: the installer is run into <lazarusDir>, <lazarusDir> is added to
    PATH, then the directory of the compiler's binaries under
    <lazarusDir>/fpc/<v>, and FPCDIR is exported as <lazarusDir>/fpc/<v>,
    where <v> is the fourth component of the installer's file name split
    at dashes.  For a version without a dash <v> is the compiler version
    [findFPCVersion] resolves. *)
Theorem C8_win32_path_and_FPCDIR {W : Type} (h : Host W) (this : Lazarus) (w : W) :
  _Platform this = "win32" -> os_platform h = "win32" ->
  let o := _downloadLazarus h this w in
  succeeded o = true ->
  exists tmp v downloadPath_WIN before,
    env_RUNNER_TEMP h = Some tmp
    /\ createLazarusFileName (os_platform h) (os_arch h) (_LazarusVersion this)
       = FNString ("lazarus-" ++ _LazarusVersion this ++ "-fpc-"
                   ++ findFPCVersion (_LazarusVersion this) ++ "-"
                   ++ win_arch_tag (os_arch h) ++ ".exe")
    /\ nth_error
         (Js.split "-" ("lazarus-" ++ _LazarusVersion this ++ "-fpc-"
                        ++ findFPCVersion (_LazarusVersion this) ++ "-"
                        ++ win_arch_tag (os_arch h) ++ ".exe")) 3 = Some v
    /\ (Js.includes (_LazarusVersion this) "-" = false ->
        v = findFPCVersion (_LazarusVersion this))
    /\ let lazarusDir := path_join h [path_join h [tmp; "installers"]; "lazarus"] in
       let fpcDir := path_join h [lazarusDir; "fpc"; v; "bin";
                                  "x86_64-" ++ win_arch_tag (os_arch h)] in
       trace o
       = (before
          ++ [exec_call (downloadPath_WIN ++ " /VERYSILENT /SP- /DIR=" ++ lazarusDir);
              core_addPath lazarusDir;
              core_info ("_downloadLazarus - Adding '" ++ lazarusDir ++ "' to PATH");
              core_addPath fpcDir;
              core_info ("_downloadLazarus - Added '" ++ fpcDir ++ "' to PATH");
              core_exportVariable "FPCDIR" (path_join h [lazarusDir; "fpc"; v])])%list.
Proof.
  intros Hp Hos o Hs.
  assert (Ho : o = win32_install h this false w) by (apply download_win32; exact Hp).
  rewrite Ho in Hs |- *. unfold win32_install in Hs |- *.
  rewrite bind_info in Hs |- *. rewrite succeeded_after_call in Hs.
  apply succeeded_bind in Hs. destruct Hs as [p [Hr Hs]].
  destruct (win32_run_installer_success h this p _ Hos Hs) as [tmp [v [Ht [Hv Htr]]]].
  exists tmp, v, p.
  eexists. split; [exact Ht|].
  split; [unfold createLazarusFileName; rewrite Hos; reflexivity|].
  split; [exact Hv|].
  split.
  - intros Hd. rewrite (installer_name_parts _ _ Hd) in Hv.
    simpl in Hv. congruence.
  - cbv zeta in Htr |- *. cbn [after_call trace].
    rewrite trace_bind, Hr, Htr, app_comm_cons. reflexivity.
Qed.

Lemma C8_win32_path_and_FPCDIR_witness :
  exists before,
    trace (_downloadLazarus (healthy_host "win32" "x64" false)
             (new_Lazarus (healthy_host "win32" "x64" false) "2.2.6" true) tt)
    = (before
       ++ [core_addPath "/tmp/installers/lazarus/fpc/3.2.2/bin/x86_64-win64";
           core_info "_downloadLazarus - Added '/tmp/installers/lazarus/fpc/3.2.2/bin/x86_64-win64' to PATH";
           core_exportVariable "FPCDIR" "/tmp/installers/lazarus/fpc/3.2.2"])%list.
Proof.
  destruct (C8_win32_path_and_FPCDIR (healthy_host "win32" "x64" false)
              (new_Lazarus (healthy_host "win32" "x64" false) "2.2.6" true) tt
              eq_refl eq_refl eq_refl)
    as [tmp [v [p [before [Ht [_ [Hv [_ Htr]]]]]]]].
  injection Ht as <-. vm_compute in Hv. injection Hv as <-.
  eexists (before ++ [_; _; _])%list. rewrite Htr, <- app_assoc. reflexivity.
Defined.

(** ** The cache gate *)

Section Gate.

Context {W : Type} (h : Host W).

Local Open Scope run_scope.

Lemma firstn_min {A} (n : nat) (l : list A) :
  firstn (Nat.min n (length l)) l = firstn n l.
Proof.
  destruct (Nat.le_ge_cases n (length l)) as [H|H].
  - rewrite Nat.min_l by exact H. reflexivity.
  - rewrite Nat.min_r by exact H.
    rewrite firstn_all, firstn_all2 by exact H. reflexivity.
Qed.

Lemma within_quiet {A} (m : M W A) :
  avoids is_download m -> downloads_within [] m.
Proof.
  intros H w. rewrite (urls_avoided m w H). split.
  - exists 0. reflexivity.
  - reflexivity.
Qed.

Lemma within_bind {A B} (u1 u2 : list string) (m : M W A) (k : A -> M W B) :
  downloads_within u1 m -> (forall a, downloads_within u2 (k a)) ->
  downloads_within (u1 ++ u2)%list (bind m k).
Proof.
  intros Hm Hk w. rewrite urls_bind.
  destruct (Hm w) as [[n Hn] Hfull].
  destruct (result (m w)) as [e|a] eqn:E.
  - split.
    + exists (Nat.min n (length u1)).
      rewrite app_nil_r, Hn, firstn_app.
      replace (Nat.min n (length u1) - length u1) with 0 by lia.
      rewrite firstn_min. cbn [firstn]. rewrite app_nil_r. reflexivity.
    + unfold succeeded. rewrite result_bind, E. discriminate.
  - assert (Hs : succeeded (m w) = true) by (unfold succeeded; rewrite E; reflexivity).
    rewrite (Hfull Hs).
    destruct (Hk a (world (m w))) as [[n2 Hn2] Hfull2]. split.
    + exists (length u1 + n2). rewrite Hn2, firstn_app_2. reflexivity.
    + unfold succeeded at 1. rewrite result_bind, E. intros Hs2.
      rewrite (Hfull2 Hs2). reflexivity.
Qed.

Lemma within_quiet_bind {A B} (u : list string) (m : M W A) (k : A -> M W B) :
  avoids is_download m -> (forall a, downloads_within u (k a)) ->
  downloads_within u (bind m k).
Proof.
  intros Hm Hk. apply (within_bind [] u); [apply within_quiet; exact Hm | exact Hk].
Qed.

Lemma within_bind_quiet {A B} (u : list string) (m : M W A) (k : A -> M W B) :
  downloads_within u m -> (forall a, avoids is_download (k a)) ->
  downloads_within u (bind m k).
Proof.
  intros Hm Hk. rewrite <- (app_nil_r u).
  apply within_bind; [exact Hm | intros a; apply within_quiet, Hk].
Qed.

Lemma within_downloadTool (url dest : string) :
  downloads_within [url] (downloadTool h url dest).
Proof.
  intros w. rewrite urls_downloadTool. split; [exists 1|]; reflexivity.
Qed.

Lemma info_quiet (message : string) : avoids is_download (info h message).
Proof. unfold_calls. avoid_tac. Qed.

Lemma exec_quiet (cmd : string) : avoids is_download (exec h cmd).
Proof. unfold_calls. avoid_tac. Qed.

Lemma download_within (url localName : string) :
  downloads_within [url] (cached_or_download h false url localName).
Proof.
  unfold cached_or_download.
  apply within_quiet_bind; [apply getTempDirectory_quiet|]. intros tmp.
  apply within_bind_quiet; [apply within_downloadTool|]. intros p.
  unfold_calls. avoid_tac.
Qed.

Lemma linux_artifact_within (this : Lazarus) (pkg localName : string) :
  downloads_within [_getPackageURL h this pkg] (linux_artifact h this false pkg localName).
Proof.
  unfold linux_artifact. cbv zeta.
  apply within_quiet_bind; [apply info_quiet|]. intros _.
  apply within_bind_quiet; [apply download_within|]. intros p. apply exec_quiet.
Qed.

Lemma linux_install_within (this : Lazarus) :
  downloads_within
    [_getPackageURL h this "fpcsrc"; _getPackageURL h this "fpc"; _getPackageURL h this "laz"]
    (linux_install h this false).
Proof.
  unfold linux_install.
  apply within_quiet_bind; [apply exec_quiet|]. intros _.
  apply (within_bind [_] [_; _]); [apply linux_artifact_within|]. intros _.
  apply (within_bind [_] [_]); [apply linux_artifact_within|]. intros _.
  apply linux_artifact_within.
Qed.

Lemma darwin_package_quiet (base : string) :
  avoids is_download (darwin_package_in_volume h base).
Proof.
  unfold darwin_package_in_volume. cbv zeta. unfold_calls. avoid_tac.
Qed.

Lemma darwin_artifact_within (this : Lazarus) (pkg base : string) :
  downloads_within [_getPackageURL h this pkg] (darwin_artifact h this false pkg base).
Proof.
  unfold darwin_artifact. cbv zeta.
  apply within_quiet_bind; [apply info_quiet|]. intros _.
  apply within_bind_quiet; [apply download_within|]. intros p.
  destruct (String.eqb _ _).
  - apply avoids_bind; [apply exec_quiet|]. intros _.
    apply avoids_bind; [apply darwin_package_quiet|]. intros full_path.
    apply exec_quiet.
  - apply exec_quiet.
Qed.

Lemma symlink_quiet : avoids is_download (darwin_lazbuild_symlink h).
Proof. unfold darwin_lazbuild_symlink. unfold_calls. avoid_tac. Qed.

Lemma darwin_within (this : Lazarus) :
  downloads_within
    [_getPackageURL h this "fpcsrc"; _getPackageURL h this "fpc"; _getPackageURL h this "laz"]
    (bind (darwin_artifacts h this false) (fun _ => darwin_lazbuild_symlink h)).
Proof.
  apply within_bind_quiet; [|intros _; apply symlink_quiet].
  unfold darwin_artifacts.
  apply (within_bind [_] [_; _]); [apply darwin_artifact_within|]. intros _.
  apply (within_bind [_] [_]); [apply darwin_artifact_within|]. intros _.
  apply darwin_artifact_within.
Qed.

Lemma win32_within (this : Lazarus) :
  downloads_within [_getPackageURL h this "laz"] (win32_install h this false).
Proof.
  unfold win32_install. cbv zeta.
  apply within_quiet_bind; [apply info_quiet|]. intros _.
  apply within_bind_quiet; [apply download_within|]. intros p.
  apply win32_run_installer_quiet.
Qed.

(** After a restore that failed, the downloads are those the platform
    requires, as far as the run gets. *)
Lemma switch_within (this : Lazarus) :
  downloads_within (required_urls h this) (install_for_platform h this false).
Proof.
  unfold install_for_platform, required_urls, required_artifacts.
  destruct (String.eqb (_Platform this) "win32"); [apply win32_within|].
  destruct (String.eqb (_Platform this) "linux"); [apply linux_install_within|].
  destruct (String.eqb (_Platform this) "darwin"); [apply darwin_within|].
  apply within_quiet, avoids_throw.
Qed.

(** After a restore that succeeded, there is no download. *)
Lemma switch_cached (this : Lazarus) :
  avoids is_download (install_for_platform h this true).
Proof.
  unfold install_for_platform, win32_install, linux_install, linux_artifact,
    darwin_artifacts, darwin_artifact, darwin_lazbuild_symlink.
  cbv zeta.
  repeat match goal with
         | |- avoids _ (if ?b then _ else _) => destruct b
         | |- avoids _ (bind _ _) => apply avoids_bind; [|intros ?]
         | |- avoids _ (info _ _) => apply info_quiet
         | |- avoids _ (exec _ _) => apply exec_quiet
         | |- avoids _ (cached_or_download _ true _ _) => apply cached_quiet
         | |- avoids _ (win32_run_installer _ _ _) => apply win32_run_installer_quiet
         | |- avoids _ (darwin_package_in_volume _ _) => apply darwin_package_quiet
         | |- avoids _ (throw _) => apply avoids_throw
         | |- avoids _ (existsSync _ _) => apply avoids_call; reflexivity
         end.
Qed.


End Gate.




(** ** Runs on the concrete runners *)

Example resolver_examples :
  map findFPCVersion ["2.0.10"; "2.0.8"; "1.8.4"; "1.6.4"; "1.6.2"; "1.2.0"; "1.0.14";
                      "1.4.4"; "1.2.6"; "2.2.6"; "stable"; ""]
  = ["3.2.0"; "3.0.4"; "3.0.4"; "3.0.2"; "3.0.0"; "2.6.2"; "2.6.2";
     "2.6.4"; "2.6.4"; "3.2.2"; "3.2.2"; "3.2.2"].
Proof. reflexivity. Qed.

Example installer_name_with_dash :
  nth_error (Js.split "-" (FileName_text (createLazarusFileName "win32" "x64" "3.0-rc1"))) 3
  = Some "fpc".
Proof. reflexivity. Qed.

Example linux_run_downloads :
  download_urls
    (trace (installLazarus (healthy_host "linux" "x64" false)
              (new_Lazarus (healthy_host "linux" "x64" false) "2.2.6" true) tt))
  = ["https://sourceforge.net/projects/lazarus/files/Lazarus%20Linux%20amd64%20DEB/Lazarus%202.2.6/fpc-src_3.2.2-210709_amd64.deb";
     "https://sourceforge.net/projects/lazarus/files/Lazarus%20Linux%20amd64%20DEB/Lazarus%202.2.6/fpc_3.2.2-210709_amd64.deb";
     "https://sourceforge.net/projects/lazarus/files/Lazarus%20Linux%20amd64%20DEB/Lazarus%202.2.6/lazarus-project_2.2.6-0_amd64.deb"].
Proof. reflexivity. Qed.

Example linux_run_from_cache :
  filter is_exec
    (trace (installLazarus (healthy_host "linux" "x64" true)
              (new_Lazarus (healthy_host "linux" "x64" true) "2.2.6" true) tt))
  = [exec_call "sudo apt update";
     exec_call "sudo apt install -y /tmp/installers/fpcsrc.deb";
     exec_call "sudo apt install -y /tmp/installers/fpc.deb";
     exec_call "sudo apt install -y /tmp/installers/lazarus.deb"].
Proof. reflexivity. Qed.

Example linux_run_apt_broken :
  let o := installLazarus linux_apt_broken (new_Lazarus linux_apt_broken "2.2.6" false) tt in
  result o = inl (Error "The process failed: sudo apt update")
  /\ downloads (trace o) = [].
Proof. split; reflexivity. Qed.

Example darwin_run_relinks :
  let host := darwin_host false (fun p => String.eqb p lazAppPath) in
  filter is_exec (trace (darwin_lazbuild_symlink host tt))
  = [exec_call "rm -rf /usr/local/bin/lazbuild";
     exec_call "ln -s /Applications/Lazarus/lazbuild /usr/local/bin/lazbuild"].
Proof. reflexivity. Qed.

(** * Further properties of the code *)

(** ** Strings, continued *)

Lemma append_assoc (a b c : string) : (a ++ b) ++ c = a ++ (b ++ c).
Proof. induction a as [|x a IH]; simpl; [|rewrite IH]; reflexivity. Qed.

Lemma append_length (a b : string) :
  String.length (a ++ b) = String.length a + String.length b.
Proof. induction a as [|x a IH]; simpl; [|rewrite IH]; reflexivity. Qed.

Lemma append_cancel_r (a b t : string) : a ++ t = b ++ t -> a = b.
Proof.
  revert b. induction a as [|x a IH]; intros [|y b] H; simpl in H.
  - reflexivity.
  - exfalso. apply (f_equal String.length) in H. simpl in H.
    rewrite append_length in H. lia.
  - exfalso. apply (f_equal String.length) in H. simpl in H.
    rewrite append_length in H. lia.
  - injection H as -> H. rewrite (IH b H). reflexivity.
Qed.

Lemma startsWith_weaken (s p q : string) :
  Js.startsWith s (p ++ q) = true -> Js.startsWith s p = true.
Proof.
  intros H. apply startsWith_inv in H. destruct H as [r ->].
  rewrite append_assoc. apply startsWith_append.
Qed.

Lemma startsWith_refl (s : string) : Js.startsWith s s = true.
Proof.
  unfold Js.startsWith. induction s as [|c s IH]; simpl; [reflexivity|].
  destruct (ascii_dec c c) as [_|N]; [exact IH | contradiction].
Qed.

(** ** The resolver on the versions of today *)

Lemma default_outside_the_rules (ver : string) :
  Js.startsWith ver "1." = false -> Js.startsWith ver "2.0." = false ->
  findFPCVersion ver = "3.2.2".
Proof.
  intros H1 H2.
  assert (P1 : forall q, Js.startsWith ver ("1." ++ q) = false).
  { intros q. destruct (Js.startsWith ver ("1." ++ q)) eqn:E; [|reflexivity].
    apply startsWith_weaken in E. congruence. }
  assert (P2 : forall q, Js.startsWith ver ("2.0." ++ q) = false).
  { intros q. destruct (Js.startsWith ver ("2.0." ++ q)) eqn:E; [|reflexivity].
    apply startsWith_weaken in E. congruence. }
  assert (E1 : forall q, String.eqb ver ("1." ++ q) = false).
  { intros q. apply String.eqb_neq. intros ->.
    rewrite startsWith_append in H1. discriminate. }
  pose proof (P2 "1") as A1. pose proof (P1 "8") as A2. pose proof (E1 "6.4") as A3.
  pose proof (P1 "6") as A4. pose proof (E1 "2.0") as A5. pose proof (P1 "0") as A6.
  pose proof (P1 "4") as A7. pose proof (P1 "2") as A8.
  cbn [append] in A1, A2, A3, A4, A5, A6, A7, A8.
  unfold findFPCVersion. rewrite A1, H2, A2, A3, A4, A5, A6, A7, A8. reflexivity.
Qed.

(** X1.  Every rule of the resolver asks for a version that starts with
    "1." or with "2.0.": any other version, 2.2 and later, the aliases and
    the empty string included, resolves to the default compiler. *)
Theorem findFPCVersion_modern (ver : string) :
  Js.startsWith ver "1." = false -> Js.startsWith ver "2.0." = false ->
  findFPCVersion ver = "3.2.2".
Proof. exact (default_outside_the_rules ver). Qed.

Lemma findFPCVersion_modern_witness : findFPCVersion "2.2.6" = "3.2.2".
Proof. apply (findFPCVersion_modern "2.2.6"); reflexivity. Defined.

(** ** The package names on linux *)

(** X2.  The [switch] on the compiler version in [createLazarusFileName]
    has no default, and needs none: it has a case for every version the
    resolver returns, so that on linux the suffix of the package names is
    never left empty. *)
Theorem linux_suffix_never_empty (arch ver : string) :
  exists suffix,
    suffix <> ""
    /\ createLazarusFileName "linux" arch ver
       = FNObject
           {| laz := "lazarus-project_" ++ ver ++ "-0_amd64.deb";
              fpc := "fpc" ++ (if Js.startsWith ver "1." then "-laz-" else "_")
                       ++ findFPCVersion ver ++ "-"
                       ++ (if String.eqb (findFPCVersion ver) "3.0.4" then "1" else suffix)
                       ++ "_amd64.deb";
              fpcsrc := "fpc-src_" ++ findFPCVersion ver ++ "-" ++ suffix ++ "_amd64.deb" |}.
Proof.
  exists (linux_fpcverSuffix ver (findFPCVersion ver)). split.
  - pose proof (findFPCVersion_range ver) as H. simpl in H.
    unfold linux_fpcverSuffix.
    repeat (destruct H as [H|H];
            [rewrite <- H; cbn [String.eqb Ascii.eqb Bool.eqb];
             try destruct (_ && _); discriminate|]).
    contradiction.
  - unfold createLazarusFileName, linux_built_names.
    change (Js.startsWith "linux" "win") with false.
    change (String.eqb "linux" "darwin") with false. cbv iota zeta.
    destruct (Js.startsWith ver "1."); reflexivity.
Qed.

(** X3.  In the case "2.6.4" of that switch the test [ver !== "1.2.0"] never
    decides: "1.2.0" resolves to 2.6.2.  For a version that resolves to
    2.6.4 the suffix is "140420" when it starts with "1.2." and "150228"
    otherwise. *)
Theorem linux_suffix_2_6_4 (ver : string) :
  findFPCVersion ver = "2.6.4" ->
  ver <> "1.2.0"
  /\ linux_fpcverSuffix ver (findFPCVersion ver)
     = if Js.startsWith ver "1.2." then "140420" else "150228".
Proof.
  intros H.
  assert (N : ver <> "1.2.0") by (intros ->; discriminate H).
  split; [exact N|]. rewrite H. unfold linux_fpcverSuffix.
  cbn [String.eqb Ascii.eqb Bool.eqb].
  apply String.eqb_neq in N. rewrite N, andb_true_r. reflexivity.
Qed.

Lemma linux_suffix_2_6_4_witness :
  linux_fpcverSuffix "1.2.6" (findFPCVersion "1.2.6") = "140420"
  /\ linux_fpcverSuffix "1.4.4" (findFPCVersion "1.4.4") = "150228".
Proof.
  split.
  - apply (proj2 (linux_suffix_2_6_4 "1.2.6" eq_refl)).
  - apply (proj2 (linux_suffix_2_6_4 "1.4.4" eq_refl)).
Defined.

(** ** The key of the cache *)

(** X4.  On one runner the key names the version: two objects the
    constructor builds have the same key only when they were asked for the
    same version, whatever dashes the versions hold. *)
Theorem constructor_key_injective {W : Type} (h : Host W)
    (v1 v2 : string) (c1 c2 : bool) :
  key (_Cache (new_Lazarus h v1 c1)) = key (_Cache (new_Lazarus h v2 c2)) <-> v1 = v2.
Proof.
  split.
  - unfold new_Lazarus, set_Cache_key, composite_key. cbn [_Cache key Cache_set_key
      _LazarusVersion _Arch _Platform].
    apply append_cancel_r.
  - intros ->. reflexivity.
Qed.

(** ** The components of the installer's name *)

Lemma split_nonempty (sep : ascii) (s : string) : Js.split sep s <> [].
Proof.
  destruct s as [|c s]; simpl; [discriminate|].
  destruct (Ascii.eqb c sep); [discriminate|].
  destruct (Js.split sep s); discriminate.
Qed.

Lemma split_length_cons (sep c : ascii) (r : string) :
  length (Js.split sep (String c r))
  = if Ascii.eqb c sep then S (length (Js.split sep r)) else length (Js.split sep r).
Proof.
  simpl. destruct (Ascii.eqb c sep); [reflexivity|].
  pose proof (split_nonempty sep r) as N.
  destruct (Js.split sep r); [contradiction | reflexivity].
Qed.

Lemma split_length_append (sep : ascii) (a b : string) :
  length (Js.split sep (a ++ b)) + 1
  = length (Js.split sep a) + length (Js.split sep b).
Proof.
  induction a as [|c a IH].
  - simpl. lia.
  - change (String c a ++ b) with (String c (a ++ b)).
    rewrite !split_length_cons. destruct (Ascii.eqb c sep); lia.
Qed.

Lemma split_length_pos (sep : ascii) (s : string) : 1 <= length (Js.split sep s).
Proof.
  pose proof (split_nonempty sep s) as N.
  destruct (Js.split sep s); [contradiction | simpl; lia].
Qed.

Lemma installer_name_components (ver arch : string) :
  5 <= length
         (Js.split "-" ("lazarus-" ++ ver ++ "-fpc-" ++ findFPCVersion ver ++ "-"
                        ++ win_arch_tag arch ++ ".exe")).
Proof.
  change ("lazarus-" ++ ver ++ "-fpc-" ++ findFPCVersion ver ++ "-"
          ++ win_arch_tag arch ++ ".exe")
    with ("lazarus" ++ String "-" (ver ++ ("" ++ String "-" ("fpc" ++ String "-"
            (findFPCVersion ver ++ String "-" (win_arch_tag arch ++ ".exe")))))).
  rewrite (split_component "-" "lazarus") by reflexivity.
  pose proof (split_length_append "-" ver
                ("" ++ String "-" ("fpc" ++ String "-"
                   (findFPCVersion ver ++ String "-" (win_arch_tag arch ++ ".exe"))))) as L.
  rewrite (split_component "-" "") in L by reflexivity.
  rewrite (split_component "-" "fpc") in L by reflexivity.
  rewrite (split_component "-" (findFPCVersion ver)) in L
    by apply findFPCVersion_no_dash.
  pose proof (split_length_pos "-" ver).
  pose proof (split_length_pos "-" (win_arch_tag arch ++ ".exe")).
  cbn [length] in L |- *. lia.
Qed.

Lemma installer_name_fourth_component (ver arch : string) :
  exists v,
    nth_error
      (Js.split "-" ("lazarus-" ++ ver ++ "-fpc-" ++ findFPCVersion ver ++ "-"
                     ++ win_arch_tag arch ++ ".exe")) 3 = Some v.
Proof.
  destruct (nth_error _ 3) as [v|] eqn:E; [exists v; reflexivity|].
  exfalso. apply nth_error_None in E.
  pose proof (installer_name_components ver arch). lia.
Qed.

(** X5.  The name of the Windows installer has at least five components
    between dashes, whatever the version: [parts[3]] is never undefined, and
    the win32 branch cannot fail on it. *)
Theorem installer_name_has_parts_3 (ver arch : string) :
  5 <= length
         (Js.split "-" ("lazarus-" ++ ver ++ "-fpc-" ++ findFPCVersion ver ++ "-"
                        ++ win_arch_tag arch ++ ".exe"))
  /\ exists v,
       nth_error
         (Js.split "-" ("lazarus-" ++ ver ++ "-fpc-" ++ findFPCVersion ver ++ "-"
                        ++ win_arch_tag arch ++ ".exe")) 3 = Some v.
Proof.
  split; [apply installer_name_components | apply installer_name_fourth_component].
Qed.

(** X6.  For a version with one dash, such as a release candidate, the
    fourth component of the installer's name is the literal "fpc" and not
    the compiler version: that is what the win32 branch then puts into the
    directory it adds to PATH and into FPCDIR. *)
Theorem installer_name_of_dashed_version (a b arch : string) :
  Js.includes a "-" = false -> Js.includes b "-" = false ->
  nth_error
    (Js.split "-" ("lazarus-" ++ (a ++ "-" ++ b) ++ "-fpc-"
                   ++ findFPCVersion (a ++ "-" ++ b) ++ "-"
                   ++ win_arch_tag arch ++ ".exe")) 3 = Some "fpc".
Proof.
  intros Ha Hb.
  replace ("lazarus-" ++ (a ++ "-" ++ b) ++ "-fpc-"
           ++ findFPCVersion (a ++ "-" ++ b) ++ "-" ++ win_arch_tag arch ++ ".exe")
    with ("lazarus" ++ String "-" (a ++ String "-" (b ++ String "-" ("fpc" ++ String "-"
            (findFPCVersion (a ++ "-" ++ b) ++ "-" ++ win_arch_tag arch ++ ".exe"))))).
  - rewrite (split_component "-" "lazarus") by reflexivity.
    rewrite (split_component "-" a) by exact Ha.
    rewrite (split_component "-" b) by exact Hb.
    rewrite (split_component "-" "fpc") by reflexivity.
    reflexivity.
  - cbn [append]. rewrite (append_assoc a). cbn [append]. reflexivity.
Qed.

Lemma installer_name_of_dashed_version_witness :
  nth_error
    (Js.split "-" ("lazarus-" ++ ("3.0" ++ "-" ++ "rc1") ++ "-fpc-"
                   ++ findFPCVersion ("3.0" ++ "-" ++ "rc1") ++ "-"
                   ++ win_arch_tag "x64" ++ ".exe")) 3 = Some "fpc".
Proof.
  apply (installer_name_of_dashed_version "3.0" "rc1" "x64"); reflexivity.
Defined.

(** ** Calls of one kind in a run *)

Section Kinds.

Context {W : Type} (h : Host W).

Local Open Scope run_scope.

Lemma filter_trace_bind {A B} (P : Event -> bool) (m : M W A) (k : A -> M W B) (w : W) :
  filter P (trace (bind m k w))
  = (filter P (trace (m w))
     ++ match result (m w) with
        | inl _ => []
        | inr a => filter P (trace (k a (world (m w))))
        end)%list.
Proof.
  rewrite trace_bind, filter_app. destruct (result (m w)); reflexivity.
Qed.

Lemma cached_or_download_avoids (P : Event -> bool) (c : bool) (url localName : string) :
  (forall e, P e = true -> is_download e = false) ->
  (forall message, P (core_info message) = false) ->
  avoids P (cached_or_download h c url localName).
Proof.
  intros Hd Hi. unfold cached_or_download.
  assert (Ht : forall dest, P (tc_downloadTool url dest) = false).
  { intros dest. destruct (P (tc_downloadTool url dest)) eqn:E; [|reflexivity].
    apply Hd in E. discriminate E. }
  destruct c.
  - apply avoids_bind; [apply getTempDirectory_quiet|]. intros tmp.
    apply avoids_bind; [apply avoids_call, Hi | intros _; apply avoids_ret].
  - apply avoids_bind; [apply getTempDirectory_quiet|]. intros tmp.
    apply avoids_bind; [apply avoids_call, Ht|]. intros p.
    apply avoids_bind; [apply avoids_call, Hi | intros _; apply avoids_ret].
Qed.

(** The branches of linux and darwin neither touch PATH nor export a
    variable, whatever the cache gave. *)
Lemma linux_install_no_env (this : Lazarus) (c : bool) :
  avoids is_env_change (linux_install h this c).
Proof.
  unfold linux_install, linux_artifact. cbv zeta.
  repeat match goal with
         | |- avoids _ (bind _ _) => apply avoids_bind; [|intros ?]
         | |- avoids _ (cached_or_download _ _ _ _) =>
             apply cached_or_download_avoids;
             [intros [] E; (discriminate E || reflexivity) | reflexivity]
         | |- avoids _ (exec _ _) => apply avoids_call; reflexivity
         | |- avoids _ (info _ _) => apply avoids_call; reflexivity
         end.
Qed.

Lemma darwin_package_avoids (P : Event -> bool) (base : string) :
  (forall p, P (fs_readdirSync p) = false) ->
  avoids P (darwin_package_in_volume h base).
Proof.
  intros Hr. unfold darwin_package_in_volume. cbv zeta.
  apply avoids_bind; [apply avoids_call, Hr|]. intros volumes.
  apply avoids_bind; [apply avoids_call, Hr|]. intros entries.
  apply avoids_bind; [|intros loc; apply avoids_ret].
  destruct (filter _ entries); [|apply avoids_ret].
  apply avoids_bind; [apply avoids_call, Hr | intros entries'; apply avoids_ret].
Qed.

Lemma darwin_no_env (this : Lazarus) (c : bool) :
  avoids is_env_change
    (bind (darwin_artifacts h this c) (fun _ => darwin_lazbuild_symlink h)).
Proof.
  unfold darwin_artifacts, darwin_artifact, darwin_lazbuild_symlink. cbv zeta.
  repeat match goal with
         | |- avoids _ (bind _ _) => apply avoids_bind; [|intros ?]
         | |- avoids _ (if ?b then _ else _) => destruct b
         | |- avoids _ (cached_or_download _ _ _ _) =>
             apply cached_or_download_avoids;
             [intros [] E; (discriminate E || reflexivity) | reflexivity]
         | |- avoids _ (darwin_package_in_volume _ _) =>
             apply darwin_package_avoids; reflexivity
         | |- avoids _ (exec _ _) => apply avoids_call; reflexivity
         | |- avoids _ (info _ _) => apply avoids_call; reflexivity
         | |- avoids _ (existsSync _ _) => apply avoids_call; reflexivity
         | |- avoids _ (throw _) => apply avoids_throw
         end.
Qed.

Lemma restore_avoids (P : Event -> bool) (c : Cache) :
  P (Cache_restore (key c)) = false -> avoids P (restore h c).
Proof. intros H. apply avoids_call, H. Qed.

End Kinds.

(** X7.  Off Windows the action leaves the environment of the job alone:
    on a runner whose platform is not win32 no run of [installLazarus] adds
    to PATH or exports a variable, whatever the version and whether the run
    succeeds or fails. *)
Theorem only_win32_changes_environment {W : Type} (h : Host W)
    (ver : string) (WithCache : bool) (w : W) :
  os_platform h <> "win32" ->
  filter is_env_change (trace (installLazarus h (new_Lazarus h ver WithCache) w)) = [].
Proof.
  intros Hp.
  assert (Hd : forall st, _Platform st = os_platform h ->
                 avoids is_env_change (_downloadLazarus h st)).
  { intros st Hst. unfold _downloadLazarus, install_for_platform. rewrite Hst.
    apply String.eqb_neq in Hp. rewrite Hp. cbn [negb].
    apply avoids_bind; [apply restore_avoids; reflexivity|]. intros c.
    destruct (String.eqb (os_platform h) "linux"); [apply linux_install_no_env|].
    destruct (String.eqb (os_platform h) "darwin"); [apply darwin_no_env|].
    apply avoids_throw. }
  unfold installLazarus, installLazarus_body.
  apply avoids_bind; [apply avoids_call; reflexivity|]. intros _.
  rewrite alias_assignments.
  repeat match goal with
         | |- avoids _ (if ?b then _ else _) => destruct b
         | |- avoids _ (bind _ _) => apply avoids_bind; [|intros ?]
         | |- avoids _ (exec _ _) => apply avoids_call; reflexivity
         | |- avoids _ (throw _) => apply avoids_throw
         | |- avoids _ (_downloadLazarus _ _) => apply Hd; reflexivity
         end.
Qed.

Lemma only_win32_changes_environment_witness :
  filter is_env_change
    (trace (installLazarus (healthy_host "linux" "x64" false)
              (new_Lazarus (healthy_host "linux" "x64" false) "2.2.6" true) tt)) = [].
Proof.
  apply (only_win32_changes_environment (healthy_host "linux" "x64" false) "2.2.6" true tt).
  discriminate.
Defined.

(** ** Where the artifacts come from *)

Lemma startsWith_append_l (s t p : string) :
  Js.startsWith s p = true -> Js.startsWith (s ++ t) p = true.
Proof.
  intros H. apply startsWith_inv in H. destruct H as [r ->].
  rewrite append_assoc. apply startsWith_append.
Qed.

Lemma In_firstn {A} (n : nat) (l : list A) (x : A) : In x (firstn n l) -> In x l.
Proof.
  revert l. induction n as [|n IH]; intros [|y l] H; simpl in H; try contradiction.
  destruct H as [->|H]; [left; reflexivity | right; apply IH, H].
Qed.

Section Origin.

Context {W : Type} (h : Host W).

Local Open Scope run_scope.

Lemma required_urls_origin (this : Lazarus) (u : string) :
  In u (required_urls h this) -> Js.startsWith u sourceforge_files = true.
Proof.
  unfold required_urls, required_artifacts, _getPackageURL.
  destruct (String.eqb (_Platform this) "win32").
  - cbn [map In]. intros [<-|[]]. apply startsWith_append_l.
    destruct (String.eqb (_Arch this) "x64");
      [exact (startsWith_append sourceforge_files
                ("Lazarus%20Windows%2064%20bits/Lazarus%20" ++ _LazarusVersion this ++ "/"))
      |exact (startsWith_append sourceforge_files
                ("Lazarus%20Windows%2032%20bits/Lazarus%20" ++ _LazarusVersion this ++ "/"))].
  - destruct (String.eqb (_Platform this) "linux").
    + intros Hin. cbn [map In] in Hin.
      repeat (destruct Hin as [<-|Hin];
              [apply startsWith_append_l;
               exact (startsWith_append sourceforge_files
                        ("Lazarus%20Linux%20amd64%20DEB/Lazarus%20"
                         ++ _LazarusVersion this ++ "/"))|]).
      contradiction.
    + destruct (String.eqb (_Platform this) "darwin"); [|intros []].
      intros Hin. cbn [map In] in Hin.
      repeat (destruct Hin as [<-|Hin];
              [apply startsWith_append_l;
               exact (startsWith_append sourceforge_files
                        ("Lazarus%20macOS%20x86-64/Lazarus%20"
                         ++ _LazarusVersion this ++ "/"))|]).
      contradiction.
Qed.

Lemma switch_origin (this : Lazarus) (c : bool) (w : W) (u : string) :
  In u (download_urls (trace (install_for_platform h this c w))) ->
  Js.startsWith u sourceforge_files = true.
Proof.
  destruct c.
  - rewrite (urls_avoided _ w (switch_cached h this)). intros [].
  - destruct (switch_within h this w) as [[n Hn] _]. rewrite Hn. intros Hin.
    apply (required_urls_origin this), (In_firstn n), Hin.
Qed.

Lemma download_origin (this : Lazarus) (w : W) (u : string) :
  In u (download_urls (trace (_downloadLazarus h this w))) ->
  Js.startsWith u sourceforge_files = true.
Proof.
  unfold _downloadLazarus. rewrite urls_bind.
  assert (Hq : download_urls
                 (trace ((if negb (String.eqb (_Platform this) "win32")
                          then restore h (_Cache this) else ret false) w)) = []).
  { destruct (negb _); reflexivity. }
  rewrite Hq. cbn [app].
  destruct (result _) as [e|c]; [intros [] | apply switch_origin].
Qed.

End Origin.

(** X8.  Every download [installLazarus] asks for, on any runner, for any
    version and on any object, is a file under
    https://sourceforge.net/projects/lazarus/files/ : the version enters
    the URL only after that root. *)
Theorem downloads_only_from_sourceforge {W : Type} (h : Host W) (this : Lazarus)
    (w : W) (url : string) :
  In url (download_urls (trace (installLazarus h this w))) ->
  Js.startsWith url "https://sourceforge.net/projects/lazarus/files/" = true.
Proof.
  unfold installLazarus, installLazarus_body.
  rewrite urls_bind, urls_info. cbn [app info call result world].
  rewrite alias_assignments.
  destruct (String.eqb (_LazarusVersion this) "dist").
  - destruct (String.eqb (_Platform this) "linux").
    + rewrite (urls_avoided _ _ (apt_install_quiet h)). intros [].
    + destruct (String.eqb (_Platform this) "win32");
        [apply download_origin | intros []].
  - destruct (String.eqb (_LazarusVersion this) "stable"); [apply download_origin|].
    destruct (_ && _); [intros [] | apply download_origin].
Qed.

Lemma downloads_only_from_sourceforge_witness :
  Js.startsWith
    "https://sourceforge.net/projects/lazarus/files/Lazarus%20Windows%2064%20bits/Lazarus%204.2/lazarus-4.2-fpc-3.2.2-win64.exe"
    "https://sourceforge.net/projects/lazarus/files/" = true.
Proof.
  apply (downloads_only_from_sourceforge (healthy_host "win32" "x64" false)
           (new_Lazarus (healthy_host "win32" "x64" false) "stable" true) tt).
  left. reflexivity.
Defined.

(** ** The aliases and the version they stand for *)

(** X9.  The alias "stable", and "dist" on win32, run [_downloadLazarus] on
    the very object the constructor builds for the version "4.2", and so
    does a request for "4.2" itself: the three differ in the first log line
    only, and share the key of the cache. *)
Theorem stable_is_4_2 {W : Type} (h : Host W) (WithCache : bool) (w : W) :
  let run_4_2 := _downloadLazarus h (new_Lazarus h "4.2" WithCache) in
  let logged ver := core_info (install_banner (new_Lazarus h ver WithCache)) in
  installLazarus h (new_Lazarus h "stable" WithCache) w
    = after_call (logged "stable") (run_4_2 (advance h (logged "stable") w))
  /\ installLazarus h (new_Lazarus h "4.2" WithCache) w
     = after_call (logged "4.2") (run_4_2 (advance h (logged "4.2") w))
  /\ (os_platform h = "win32" ->
      installLazarus h (new_Lazarus h "dist" WithCache) w
      = after_call (logged "dist") (run_4_2 (advance h (logged "dist") w))).
Proof.
  intros run_4_2 logged. split; [|split].
  - unfold installLazarus. rewrite install_stable by reflexivity.
    rewrite bind_info. reflexivity.
  - unfold installLazarus. rewrite install_default by discriminate.
    rewrite bind_info.
    change (below_2_0_8 (_LazarusVersion (new_Lazarus h "4.2" WithCache))) with false.
    rewrite andb_false_r. reflexivity.
  - intros Hp. unfold installLazarus.
    rewrite install_dist_win32 by (reflexivity || exact Hp).
    rewrite bind_info. reflexivity.
Qed.

Lemma stable_is_4_2_witness :
  installLazarus (healthy_host "win32" "x64" false)
    (new_Lazarus (healthy_host "win32" "x64" false) "dist" true) tt
  = after_call
      (core_info (install_banner (new_Lazarus (healthy_host "win32" "x64" false) "dist" true)))
      (_downloadLazarus (healthy_host "win32" "x64" false)
         (new_Lazarus (healthy_host "win32" "x64" false) "4.2" true) tt).
Proof.
  apply (proj2 (proj2 (stable_is_4_2 (healthy_host "win32" "x64" false) true tt))).
  reflexivity.
Defined.

(** ** Platforms without a branch *)

(** X10.  On a platform other than win32, linux and darwin no run of
    [installLazarus] succeeds, and none downloads, executes a command or
    changes the environment.  The alias "dist" fails at once with
    "getLazarus - Platform not supported"; any other version first asks the
    cache to restore, and fails with the error of the restore or with
    "_downloadLazarus - Platform not implemented". *)
Theorem unsupported_platform_fails {W : Type} (h : Host W)
    (ver : string) (WithCache : bool) (w : W) :
  supported_platform (os_platform h) = false ->
  let this := new_Lazarus h ver WithCache in
  let o := installLazarus h this w in
  succeeded o = false
  /\ filter is_download (trace o) = []
  /\ filter is_exec (trace o) = []
  /\ filter is_env_change (trace o) = []
  /\ (ver = "dist" ->
      result o = inl (Error ("getLazarus - Platform not supported: " ++ os_platform h))
      /\ trace o = [core_info (install_banner this)])
  /\ (ver <> "dist" ->
      exists k,
        trace o = [core_info (install_banner this); Cache_restore k]
        /\ (result o = inl (Error ("_downloadLazarus - Platform not implemented: "
                                   ++ os_platform h))
            \/ exists e, restoreCache_result h k
                           (advance h (core_info (install_banner this)) w) = inl e
                         /\ result o = inl e)).
Proof.
  intros Hs this o. unfold supported_platform in Hs.
  apply orb_false_iff in Hs. destruct Hs as [Hs Hd].
  apply orb_false_iff in Hs. destruct Hs as [Hw Hl].
  assert (Hdl : forall st w', _Platform st = os_platform h ->
            exists r,
              _downloadLazarus h st w'
              = mkOutcome (inl r) (advance h (Cache_restore (key (_Cache st))) w')
                  [Cache_restore (key (_Cache st))]
              /\ (r = Error ("_downloadLazarus - Platform not implemented: " ++ os_platform h)
                  \/ (restoreCache_result h (key (_Cache st)) w' = inl r))).
  { intros st w' Hst. unfold _downloadLazarus, install_for_platform.
    rewrite Hst, Hw, Hl, Hd. cbn [negb]. unfold restore.
    destruct (withCache (_Cache st)).
    - destruct (restoreCache_result h (key (_Cache st)) w') as [e|c] eqn:E.
      + exists e. split; [|right; reflexivity].
        apply bind_call_err. exact E.
      + eexists. split; [|left; reflexivity].
        rewrite (bind_call_ok h _ _ _ w' c E). reflexivity.
    - eexists. split; [|left; reflexivity].
      rewrite (bind_call_ok h _ _ _ w' false eq_refl). reflexivity. }
  destruct (String.eqb_spec ver "dist") as [->|Nd].
  - assert (Ho : o = mkOutcome
                       (inl (Error ("getLazarus - Platform not supported: " ++ os_platform h)))
                       (advance h (core_info (install_banner this)) w)
                       [core_info (install_banner this)]).
    { unfold o, installLazarus.
      rewrite install_dist_other;
        [rewrite bind_info; reflexivity | reflexivity
        | apply String.eqb_neq; exact Hl | apply String.eqb_neq; exact Hw]. }
    rewrite Ho. repeat split. intros N. contradiction N. reflexivity.
  - assert (Hcase : exists st, _Platform st = os_platform h
                      /\ o = after_call (core_info (install_banner this))
                               (_downloadLazarus h st
                                  (advance h (core_info (install_banner this)) w))).
    { unfold o, installLazarus.
      destruct (String.eqb_spec ver "stable") as [->|Ns].
      - exists (stable_object this). split; [reflexivity|].
        rewrite install_stable by reflexivity. rewrite bind_info. reflexivity.
      - exists this. split; [reflexivity|].
        rewrite install_default by assumption. rewrite bind_info.
        change (_Platform this) with (os_platform h). rewrite Hd. reflexivity. }
    destruct Hcase as [st [Hst Ho]].
    destruct (Hdl st (advance h (core_info (install_banner this)) w) Hst) as [r [Hr Hwhy]].
    rewrite Hr in Ho. rewrite Ho. cbn [after_call succeeded result trace filter
      is_download is_exec is_env_change].
    do 4 (split; [reflexivity|]).
    split; [intros E; contradiction|].
    intros _. exists (key (_Cache st)). split; [reflexivity|].
    destruct Hwhy as [->|E]; [left; reflexivity | right; exists r; split; [exact E | reflexivity]].
Qed.

Lemma unsupported_platform_fails_witness :
  result (installLazarus (healthy_host "freebsd" "x64" false)
            (new_Lazarus (healthy_host "freebsd" "x64" false) "dist" true) tt)
  = inl (Error "getLazarus - Platform not supported: freebsd").
Proof.
  apply (proj1 (proj2 (proj2 (proj2 (proj2
           (unsupported_platform_fails (healthy_host "freebsd" "x64" false)
              "dist" true tt eq_refl))))) eq_refl).
Defined.

(** ** The call to the cache *)

Section RestoreOnce.

Context {W : Type} (h : Host W).

Local Open Scope run_scope.

Lemma switch_no_restore (this : Lazarus) (c : bool) :
  avoids is_restore (install_for_platform h this c).
Proof.
  unfold install_for_platform, win32_install, win32_run_installer, linux_install,
    linux_artifact, darwin_artifacts, darwin_artifact, darwin_package_in_volume,
    darwin_lazbuild_symlink, cached_or_download, _getTempDirectory.
  cbv zeta. unfold_calls. avoid_tac.
Qed.

End RestoreOnce.

(** X11.  Off win32 every run of [_downloadLazarus] starts by asking the
    cache to restore the entry of the object's key, and asks once: no later
    step calls the cache again.  When the restore itself raises an error
    the run ends there with that error. *)
Theorem restore_once_and_first {W : Type} (h : Host W) (this : Lazarus) (w : W) :
  _Platform this <> "win32" ->
  let o := _downloadLazarus h this w in
  exists rest,
    trace o = Cache_restore (key (_Cache this)) :: rest
    /\ filter is_restore rest = []
    /\ (forall e, result (restore h (_Cache this) w) = inl e ->
          result o = inl e /\ rest = []).
Proof.
  intros Hp o. unfold o, _downloadLazarus.
  apply String.eqb_neq in Hp. rewrite Hp. cbn [negb].
  destruct (result (restore h (_Cache this) w)) as [e|c] eqn:E.
  - exists []. unfold restore in *. cbn [call result] in E.
    rewrite (bind_call_err h _ _ _ w e E). cbn [trace result filter].
    split; [reflexivity|]. split; [reflexivity|].
    intros e' He. injection He as <-. split; reflexivity.
  - unfold restore in *. cbn [call result] in E.
    rewrite (bind_call_ok h _ _ _ w c E). cbn [after_call trace].
    eexists. split; [reflexivity|]. split; [apply switch_no_restore|].
    intros e He. discriminate He.
Qed.

Lemma restore_once_and_first_witness :
  exists rest,
    trace (_downloadLazarus (healthy_host "linux" "x64" true)
             (new_Lazarus (healthy_host "linux" "x64" true) "3.0" true) tt)
    = Cache_restore "3.0-x64-linux" :: rest
    /\ filter is_restore rest = [].
Proof.
  destruct (restore_once_and_first (healthy_host "linux" "x64" true)
              (new_Lazarus (healthy_host "linux" "x64" true) "3.0" true) tt)
    as [rest [Ht [Hf _]]].
  - discriminate.
  - exists rest. split; [exact Ht | exact Hf].
Defined.

(** ** The commands of a linux run *)

Section LinuxCommands.

Context {W : Type} (h : Host W).

Local Open Scope run_scope.

Lemma cached_or_download_no_exec (c : bool) (url localName : string) :
  avoids is_exec (cached_or_download h c url localName).
Proof.
  apply cached_or_download_avoids; [intros [] E; (discriminate E || reflexivity)|].
  reflexivity.
Qed.



End LinuxCommands.



(** ** A win32 run that fails *)

Section Win32Failure.

Context {W : Type} (h : Host W).

Local Open Scope run_scope.

Lemma win32_run_installer_all_or_nothing (this : Lazarus) (p : string) (w : W) :
  os_platform h = "win32" ->
  succeeded (win32_run_installer h this p w) = true
  \/ filter is_env_change (trace (win32_run_installer h this p w)) = [].
Proof.
  intros Hos. unfold win32_run_installer, _getTempDirectory, createLazarusFileName.
  rewrite Hos. change (Js.startsWith "win32" "win") with true. cbv iota.
  destruct (env_RUNNER_TEMP h) as [tmp|];
    [|cbn [String.eqb]; rewrite bind_throw; right; reflexivity].
  destruct (String.eqb tmp ""); [rewrite bind_throw; right; reflexivity|].
  rewrite bind_ret, bind_exec.
  destruct (exec_result h _ w); [right; reflexivity|].
  left. rewrite bind_addPath, bind_info, bind_ret.
  destruct (installer_name_fourth_component (_LazarusVersion this) (os_arch h)) as [v Hv].
  rewrite Hv, bind_ret, bind_addPath, bind_info. reflexivity.
Qed.

End Win32Failure.

(** X13.  On win32 the environment is changed only by a run that succeeds.
    The two additions to PATH and the export of FPCDIR come after the last
    step that can fail, the installer: a run of [_downloadLazarus] that
    fails has added nothing to PATH and exported nothing. *)
Theorem win32_failure_leaves_environment {W : Type} (h : Host W)
    (this : Lazarus) (w : W) :
  _Platform this = "win32" -> os_platform h = "win32" ->
  let o := _downloadLazarus h this w in
  succeeded o = false ->
  filter is_env_change (trace o) = [].
Proof.
  intros Hp Hos o Hs.
  assert (Ho : o = win32_install h this false w) by (apply download_win32; exact Hp).
  rewrite Ho in Hs |- *. unfold win32_install in *. cbv zeta in *.
  rewrite bind_info in Hs |- *. rewrite succeeded_after_call in Hs.
  cbn [after_call trace filter is_env_change].
  rewrite filter_trace_bind.
  rewrite (cached_or_download_avoids h is_env_change false _ _) by
    (try (intros [] E; (discriminate E || reflexivity)); reflexivity).
  cbn [app]. unfold succeeded in Hs. rewrite result_bind in Hs.
  destruct (result (cached_or_download h false _ _ _)) as [e|p]; [reflexivity|].
  destruct (win32_run_installer_all_or_nothing h this p
              (world (cached_or_download h false (_getPackageURL h this "laz")
                        ("lazarus-" ++ _LazarusVersion this ++ ".exe")
                        (advance h (core_info ("_downloadLazarus - Downloading "
                                               ++ _getPackageURL h this "laz")) w))) Hos)
    as [Hok|Hnone]; [|exact Hnone].
  unfold succeeded in Hok. destruct (result (win32_run_installer h this p _));
    discriminate.
Qed.

Lemma win32_failure_leaves_environment_witness :
  filter is_env_change
    (trace (_downloadLazarus
              (sample_host "win32" "x64" (Some "/tmp") false never (fun _ => true)
                 never no_files)
              (new_Lazarus
                 (sample_host "win32" "x64" (Some "/tmp") false never (fun _ => true)
                    never no_files) "9.9" false) tt)) = [].
Proof.
  apply (win32_failure_leaves_environment
           (sample_host "win32" "x64" (Some "/tmp") false never (fun _ => true)
              never no_files)); reflexivity.
Defined.

(** ** The artifacts of darwin *)

Lemma substring_append_skip (a b : string) (n m : nat) :
  String.substring (String.length a + n) m (a ++ b) = String.substring n m b.
Proof. induction a as [|c a IH]; simpl; [reflexivity | exact IH]. Qed.

Lemma endsWith_append_r (a b p : string) :
  String.length p <= String.length b ->
  Js.endsWith (a ++ b) p = Js.endsWith b p.
Proof.
  intros H. unfold Js.endsWith. rewrite append_length.
  replace (String.length a + String.length b - String.length p)
    with (String.length a + (String.length b - String.length p)) by lia.
  rewrite substring_append_skip.
  replace (String.length p <=? String.length a + String.length b)%nat with true
    by (symmetry; apply Nat.leb_le; lia).
  replace (String.length p <=? String.length b)%nat with true
    by (symmetry; apply Nat.leb_le; lia).
  reflexivity.
Qed.

Ltac to_last_literal :=
  repeat (rewrite endsWith_append_r
            by (rewrite ?append_length; cbn [String.length]; lia)).

(** X14.  Every version the guard of [installLazarus] lets through on
    darwin, "2.0.8" apart, resolves to the compiler 3.2.2: the names are the
    IDE's package of that version and the two disk images of 3.2.2, and the
    cases of the darwin naming for 3.2.0 and for older compilers are not
    used. *)
Theorem darwin_accepted_version_names (arch ver : string) :
  below_2_0_8 ver = false -> ver <> "2.0.8" ->
  createLazarusFileName "darwin" arch ver
  = FNObject {| laz := "Lazarus-" ++ ver ++ "-macosx-darwin.pkg";
                fpc := "fpc-3.2.2.intelarm64-macosx.dmg";
                fpcsrc := "fpc-src-3.2.2-20210709-laz.dmg" |}.
Proof.
  intros Hb N. unfold below_2_0_8 in Hb.
  apply orb_false_iff in Hb. destruct Hb as [H20 H1].
  apply String.eqb_neq in N. rewrite N in H20. cbn [negb] in H20.
  rewrite andb_true_r in H20.
  assert (H20d : Js.startsWith ver "2.0." = false).
  { destruct (Js.startsWith ver "2.0.") eqn:E; [|reflexivity].
    apply (startsWith_weaken ver "2.0" ".") in E. congruence. }
  unfold createLazarusFileName, darwin_built_names.
  rewrite (default_outside_the_rules ver H1 H20d), N, H20. reflexivity.
Qed.

Lemma darwin_accepted_version_names_witness :
  createLazarusFileName "darwin" "arm64" "3.6"
  = FNObject {| laz := "Lazarus-3.6-macosx-darwin.pkg";
                fpc := "fpc-3.2.2.intelarm64-macosx.dmg";
                fpcsrc := "fpc-src-3.2.2-20210709-laz.dmg" |}.
Proof.
  apply (darwin_accepted_version_names "arm64" "3.6"); [reflexivity | discriminate].
Defined.

Section DarwinImages.

Context {W : Type} (h : Host W).

Local Open Scope run_scope.

Lemma darwin_url (this : Lazarus) (pkg : string) :
  _Platform this = "darwin" ->
  _getPackageURL h this pkg
  = ("https://sourceforge.net/projects/lazarus/files/Lazarus%20macOS%20x86-64/Lazarus%20"
     ++ _LazarusVersion this ++ "/")
    ++ FileName_get_text
         (createLazarusFileName (os_platform h) (os_arch h) (_LazarusVersion this)) pkg.
Proof. intros Hp. unfold _getPackageURL. rewrite Hp. reflexivity. Qed.

End DarwinImages.

(** X15.  Which artifacts of darwin are disk images follows from the
    names alone, for every version: the IDE is never one (its package is
    installed as it is), the compiler always is, and the compiler's sources
    are one unless the version starts with "2.0".  So the IDE's step never
    mounts an image and never reads /Volumes. *)
Theorem darwin_disk_images {W : Type} (h : Host W) (ver : string) (WithCache : bool) :
  os_platform h = "darwin" ->
  let this := new_Lazarus h ver WithCache in
  Js.endsWith (_getPackageURL h this "laz") ".dmg" = false
  /\ Js.endsWith (_getPackageURL h this "fpc") ".dmg" = true
  /\ Js.endsWith (_getPackageURL h this "fpcsrc") ".dmg" = negb (Js.startsWith ver "2.0")
  /\ (forall c w, filter is_readdir
                    (trace (darwin_artifact h this c "laz" "lazarus" w)) = [])
  /\ (forall c w p, ~ In (exec_call ("sudo hdiutil attach " ++ p))
                         (trace (darwin_artifact h this c "laz" "lazarus" w))).
Proof.
  intros Hos this.
  assert (Hp : _Platform this = "darwin") by exact Hos.
  assert (Hlaz : Js.endsWith (_getPackageURL h this "laz") ".dmg" = false).
  { rewrite (darwin_url h this "laz" Hp). change (_LazarusVersion this) with ver.
    rewrite Hos. unfold createLazarusFileName.
    change (Js.startsWith "darwin" "win") with false.
    change (String.eqb "darwin" "darwin") with true. cbv iota.
    destruct (String.eqb ver "2.0.8"); cbn [negb FileName_get_text String.eqb
      Ascii.eqb Bool.eqb laz darwin_built_names darwin_2_0_8_names].
    - to_last_literal. reflexivity.
    - change ("Lazarus-" ++ ver ++ "-macosx-" ++ "darwin" ++ ".pkg")
        with ("Lazarus-" ++ ver ++ "-macosx-darwin.pkg").
      to_last_literal. reflexivity. }
  split; [exact Hlaz|]. split; [|split; [|split]].
  - rewrite (darwin_url h this "fpc" Hp). change (_LazarusVersion this) with ver.
    rewrite Hos. unfold createLazarusFileName.
    change (Js.startsWith "darwin" "win") with false.
    change (String.eqb "darwin" "darwin") with true. cbv iota.
    destruct (String.eqb ver "2.0.8"); cbn [negb FileName_get_text String.eqb
      Ascii.eqb Bool.eqb fpc darwin_built_names darwin_2_0_8_names].
    + to_last_literal. reflexivity.
    + destruct (Js.startsWith (findFPCVersion ver) "2.0");
        to_last_literal; reflexivity.
  - rewrite (darwin_url h this "fpcsrc" Hp). change (_LazarusVersion this) with ver.
    rewrite Hos. unfold createLazarusFileName.
    change (Js.startsWith "darwin" "win") with false.
    change (String.eqb "darwin" "darwin") with true. cbv iota.
    destruct (String.eqb_spec ver "2.0.8") as [->|N]; cbn [negb FileName_get_text
      String.eqb Ascii.eqb Bool.eqb fpcsrc darwin_built_names darwin_2_0_8_names].
    + to_last_literal. reflexivity.
    + destruct (Js.startsWith ver "2.0"); to_last_literal; reflexivity.
  - intros c w. unfold darwin_artifact. cbv zeta. rewrite Hlaz.
    change (String.eqb ("lazarus" ++ ".pkg") ("lazarus" ++ ".dmg")) with false.
    cbv iota.
    assert (Ha : avoids is_readdir
              (bind (info h ("_downloadLazarus - Downloading " ++ _getPackageURL h this "laz"))
                 (fun _ => bind (cached_or_download h c (_getPackageURL h this "laz")
                                   ("lazarus" ++ ".pkg"))
                   (fun p => exec h ("sudo installer -package " ++ p ++ " -target /"))))).
    { apply avoids_bind; [apply avoids_call; reflexivity|]. intros _.
      apply avoids_bind; [|intros p; apply avoids_call; reflexivity].
      apply cached_or_download_avoids;
        [intros [] E; (discriminate E || reflexivity) | reflexivity]. }
    apply Ha.
  - intros c w p Hin. unfold darwin_artifact in Hin. cbv zeta in Hin.
    rewrite Hlaz in Hin.
    change (String.eqb ("lazarus" ++ ".pkg") ("lazarus" ++ ".dmg")) with false in Hin.
    cbv iota in Hin.
    rewrite bind_info in Hin. cbn [after_call trace] in Hin.
    destruct Hin as [Hin|Hin]; [discriminate Hin|].
    rewrite trace_bind in Hin. apply in_app_or in Hin. destruct Hin as [Hin|Hin].
    + assert (Hf : In (exec_call ("sudo hdiutil attach " ++ p))
                     (filter is_exec
                        (trace (cached_or_download h c (_getPackageURL h this "laz")
                                  ("lazarus" ++ ".pkg")
                                  (advance h (core_info ("_downloadLazarus - Downloading "
                                                         ++ _getPackageURL h this "laz")) w)))))
        by (apply filter_In; split; [exact Hin | reflexivity]).
      rewrite (cached_or_download_no_exec h c _ _ _) in Hf. contradiction.
    + destruct (result _) as [e|q]; [contradiction|].
      destruct Hin as [Hin|[]]. injection Hin as Hin.
      discriminate Hin.
Qed.

Lemma darwin_disk_images_witness :
  Js.endsWith
    (_getPackageURL (darwin_host false never)
       (new_Lazarus (darwin_host false never) "3.6" true) "fpcsrc") ".dmg" = true.
Proof.
  apply (proj1 (proj2 (proj2 (darwin_disk_images (darwin_host false never) "3.6" true
                                eq_refl)))).
Defined.

(** ** The package inside a mounted image *)

Section Volumes.

Context {W : Type} (h : Host W).

Local Open Scope run_scope.

Lemma bind_readdirSync {B} (p : string) (k : list string -> M W B) (w : W) :
  bind (readdirSync h p) k w
  = match readdirSync_result h p w with
    | inl err => mkOutcome (inl err) (advance h (fs_readdirSync p) w) [fs_readdirSync p]
    | inr l => after_call (fs_readdirSync p) (k l (advance h (fs_readdirSync p) w))
    end.
Proof.
  unfold readdirSync. destruct (readdirSync_result h p w) as [err|l] eqn:E.
  - apply bind_call_err. exact E.
  - apply bind_call_ok. exact E.
Qed.

End Volumes.






(** X17.  A mounted image that holds neither a ".pkg" nor a ".mpkg" raises
    no error in the search: the directory is read twice, and the path handed
    to the installer is the volume's followed by "/undefined".  When no
    volume matches either, the volume itself is "undefined". *)
Theorem darwin_package_missing {W : Type} (h : Host W) (base : string) (w : W)
    (volumes entries entries' : list string) :
  let vol := Js.index0_text (filter (fun fn => Js.startsWith fn base) volumes) in
  let w1 := advance h (fs_readdirSync "/Volumes") w in
  let w2 := advance h (fs_readdirSync ("/Volumes/" ++ vol)) w1 in
  let w3 := advance h (fs_readdirSync ("/Volumes/" ++ vol)) w2 in
  readdirSync_result h "/Volumes" w = inr volumes ->
  readdirSync_result h ("/Volumes/" ++ vol) w1 = inr entries ->
  readdirSync_result h ("/Volumes/" ++ vol) w2 = inr entries' ->
  filter (fun fn => Js.endsWith fn ".pkg") entries = [] ->
  filter (fun fn => Js.endsWith fn ".mpkg") entries' = [] ->
  darwin_package_in_volume h base w
  = mkOutcome (inr ("/Volumes/" ++ vol ++ "/undefined")) w3
      [fs_readdirSync "/Volumes"; fs_readdirSync ("/Volumes/" ++ vol);
       fs_readdirSync ("/Volumes/" ++ vol)]
  /\ (filter (fun fn => Js.startsWith fn base) volumes = [] -> vol = "undefined").
Proof.
  intros vol w1 w2 w3 Hv He He' Hpkg Hmpkg. split.
  - unfold darwin_package_in_volume. cbv zeta.
    rewrite bind_readdirSync, Hv. fold vol. fold w1.
    rewrite bind_readdirSync, He. fold w2. rewrite Hpkg.
    rewrite bind_assoc, bind_readdirSync, He'. fold w3.
    rewrite !bind_ret, Hmpkg. reflexivity.
  - intros E. unfold vol. rewrite E. reflexivity.
Qed.

Lemma darwin_package_missing_witness :
  result (darwin_package_in_volume
            (sample_host "darwin" "x64" (Some "/tmp") false never never never
               (fun p => if String.eqb p "/Volumes" then ["lazarus-3.6"]
                         else ["README.txt"]))
            "lazarus" tt)
  = inr "/Volumes/lazarus-3.6/undefined".
Proof.
  apply (f_equal result
           (proj1 (darwin_package_missing
                     (sample_host "darwin" "x64" (Some "/tmp") false never never never
                        (fun p => if String.eqb p "/Volumes" then ["lazarus-3.6"]
                                  else ["README.txt"]))
                     "lazarus" tt ["lazarus-3.6"] ["README.txt"] ["README.txt"]
                     eq_refl eq_refl eq_refl eq_refl eq_refl))).
Defined.

(** ** The URL of the Windows installer *)

(** X18.  On win32 the folder of the URL is chosen from the architecture
    stored in the object and the file name from [os.arch()]; for an object
    the constructor built the two agree, so that the 64 bits folder holds the
    win64 installer and the 32 bits folder the win32 one.  The package name
    asked for plays no part. *)
Theorem win32_url_bitness {W : Type} (h : Host W) (ver pkg : string) (WithCache : bool) :
  os_platform h = "win32" ->
  let bits := if String.eqb (os_arch h) "x64" then "64" else "32" in
  _getPackageURL h (new_Lazarus h ver WithCache) pkg
  = "https://sourceforge.net/projects/lazarus/files/Lazarus%20Windows%20" ++ bits
    ++ "%20bits/Lazarus%20" ++ ver ++ "/lazarus-" ++ ver ++ "-fpc-"
    ++ findFPCVersion ver ++ "-win" ++ bits ++ ".exe".
Proof.
  intros Hos bits. unfold bits, _getPackageURL, createLazarusFileName, win_arch_tag.
  cbn [new_Lazarus set_Cache_key _Platform _Arch _LazarusVersion].
  rewrite Hos. change (Js.startsWith "win32" "win") with true.
  change (String.eqb "win32" "win32") with true. cbv iota.
  destruct (String.eqb (os_arch h) "x64"); cbn [FileName_text];
    rewrite !append_assoc; reflexivity.
Qed.

Lemma win32_url_bitness_witness :
  _getPackageURL (healthy_host "win32" "ia32" false)
    (new_Lazarus (healthy_host "win32" "ia32" false) "2.0.12" true) "laz"
  = "https://sourceforge.net/projects/lazarus/files/Lazarus%20Windows%2032%20bits/Lazarus%202.0.12/lazarus-2.0.12-fpc-3.2.0-win32.exe".
Proof.
  apply (win32_url_bitness (healthy_host "win32" "ia32" false) "2.0.12" "laz" true).
  reflexivity.
Defined.
